(** * editor-de-fotos: the upload codec, the region selector, the mask
    rasterizer, the edit pipeline and the controller

    A shallow embedding of [src/utils/fileUtils.ts] ([fileToBase64]),
    [src/services/geminiService.ts], [src/components/ImageCard.tsx] and
    [src/App.tsx], followed by the properties of the specification that
    concern them.

    Conventions of the embedding.
    - A JavaScript string is a [string] (a sequence of 8-bit units; the
      literals of the source are kept as their UTF-8 bytes).
    - A JavaScript [number] is an exact rational, or one of the three special
      values a division by zero can produce (see [JsNumber]); rounding,
      overflow and the sign of zero are not modelled.
    - A promise is its settlement ([Resolved] or [Rejected]); an [async]
      handler is cut at its [await] into the part that runs at once and
      the part that runs when the awaited promise settles.
    - The browser (file reader, image decoder, canvas) and the remote
      service are parameters of the functions that use them. *)

From Stdlib Require Import List String Ascii Bool.
From Stdlib Require Import ZArith NArith QArith Qminmax Qabs Lia Lqa.
Import ListNotations.

Local Open Scope string_scope.
Local Open Scope list_scope.

(* ================================================================== *)
(** * JavaScript values *)

Module Js.

(** What a [throw] or a rejection carries: an [Error] object with its
    message, or a value that is not an [Error] (the [ProgressEvent] of
    [FileReader.onerror], say). *)
Inductive Thrown : Type :=
| Error (message : string)
| NotAnError.

Inductive Settled (A : Type) : Type :=
| Resolved (value : A)
| Rejected (reason : Thrown).
Arguments Resolved {A} value.
Arguments Rejected {A} reason.

(** [!!s] for a string: the empty string is the only falsy one. *)
Definition truthy (s : string) : bool :=
  match s with
  | EmptyString => false
  | String _ _ => true
  end.

(** [!!v] for a value that is a string or [undefined]. *)
Definition truthy_opt (v : option string) : bool :=
  match v with
  | Some s => truthy s
  | None => false
  end.

(** [s.split(sep)] for a one-character separator: never empty. *)
Fixpoint split (sep : ascii) (s : string) : list string :=
  match s with
  | EmptyString => [EmptyString]
  | String c rest =>
      if Ascii.eqb c sep then EmptyString :: split sep rest
      else match split sep rest with
           | [] => [String c EmptyString]
           | seg :: segs => String c seg :: segs
           end
  end.

(** [s.startsWith(p)]. *)
Definition startsWith (p s : string) : bool := String.prefix p s.

(** White space as [String.prototype.trim] sees it, among 7-bit units:
    TAB, LF, VT, FF, CR and SPACE. *)
Definition isWhiteSpace (c : ascii) : bool :=
  let n := nat_of_ascii c in
  ((9 <=? n) && (n <=? 13))%nat || (n =? 32)%nat.

Fixpoint trimStart (s : string) : string :=
  match s with
  | EmptyString => EmptyString
  | String c rest => if isWhiteSpace c then trimStart rest else s
  end.

(** Drops the trailing white space: a unit is kept when it is not white
    space or when something is kept after it. *)
Fixpoint trimEnd (s : string) : string :=
  match s with
  | EmptyString => EmptyString
  | String c rest =>
      match trimEnd rest with
      | EmptyString => if isWhiteSpace c then EmptyString
                       else String c EmptyString
      | kept => String c kept
      end
  end.

Definition trim (s : string) : string := trimEnd (trimStart s).

(** A line terminator, which [.] of a regular expression refuses. *)
Definition isLineTerminator (c : ascii) : bool :=
  let n := nat_of_ascii c in ((n =? 10) || (n =? 13))%nat.

(** The lazy [(.*?);] read from the start of [s]: the text before the
    first [;], when no line terminator stands before it. *)
Fixpoint lazyUntilSemicolon (s : string) : option string :=
  match s with
  | EmptyString => None
  | String c rest =>
      if Ascii.eqb c ";" then Some EmptyString
      else if isLineTerminator c then None
      else option_map (String c) (lazyUntilSemicolon rest)
  end.

(** [s.match(/:(.*?);/)]: [None] for [null], otherwise capture group 1 of
    the leftmost match. *)
Fixpoint matchColonSemicolon (s : string) : option string :=
  match s with
  | EmptyString => None
  | String c rest =>
      if Ascii.eqb c ":" then
        match lazyUntilSemicolon rest with
        | Some group => Some group
        | None => matchColonSemicolon rest
        end
      else matchColonSemicolon rest
  end.

End Js.

(* ================================================================== *)
(** * JavaScript numbers *)

Module JsNumber.

(** A finite value is an exact rational. [PosInf], [NegInf] and [NaN]
    are what IEEE 754 gives for a division by zero and what the other
    operations then propagate. *)
Inductive number : Type :=
| Fin (q : Q)
| PosInf
| NegInf
| NaN.

Definition Qltb (a b : Q) : bool := negb (Qle_bool b a).

(** [a - b]. *)
Definition sub (a b : number) : number :=
  match a, b with
  | NaN, _ | _, NaN => NaN
  | Fin p, Fin q => Fin (p - q)
  | PosInf, PosInf | NegInf, NegInf => NaN
  | PosInf, _ | _, NegInf => PosInf
  | NegInf, _ | _, PosInf => NegInf
  end.

(** [a + b]. *)
Definition add (a b : number) : number :=
  match a, b with
  | NaN, _ | _, NaN => NaN
  | Fin p, Fin q => Fin (p + q)
  | PosInf, NegInf | NegInf, PosInf => NaN
  | PosInf, _ | _, PosInf => PosInf
  | NegInf, _ | _, NegInf => NegInf
  end.

(** The sign of a rational: [Gt] positive, [Lt] negative, [Eq] zero. *)
Definition sign (q : Q) : comparison := (q ?= 0)%Q.

(** [a * b]. *)
Definition mul (a b : number) : number :=
  match a, b with
  | NaN, _ | _, NaN => NaN
  | Fin p, Fin q => Fin (p * q)
  | Fin p, PosInf | PosInf, Fin p =>
      match sign p with Eq => NaN | Gt => PosInf | Lt => NegInf end
  | Fin p, NegInf | NegInf, Fin p =>
      match sign p with Eq => NaN | Gt => NegInf | Lt => PosInf end
  | PosInf, PosInf | NegInf, NegInf => PosInf
  | PosInf, NegInf | NegInf, PosInf => NegInf
  end.

(** [a / b]; a zero divisor is taken as [+0]. *)
Definition div (a b : number) : number :=
  match a, b with
  | NaN, _ | _, NaN => NaN
  | Fin p, Fin q =>
      match sign q with
      | Eq => match sign p with Eq => NaN | Gt => PosInf | Lt => NegInf end
      | _ => Fin (p / q)
      end
  | Fin _, _ => Fin 0
  | PosInf, Fin q => match sign q with Lt => NegInf | _ => PosInf end
  | NegInf, Fin q => match sign q with Lt => PosInf | _ => NegInf end
  | _, _ => NaN
  end.

(** [a <= b], [a < b] and [a > b]: false as soon as one side is [NaN]. *)
Definition leb (a b : number) : bool :=
  match a, b with
  | NaN, _ | _, NaN => false
  | Fin p, Fin q => Qle_bool p q
  | NegInf, _ | _, PosInf => true
  | _, _ => false
  end.

Definition ltb (a b : number) : bool :=
  match a, b with
  | NaN, _ | _, NaN => false
  | Fin p, Fin q => Qltb p q
  | PosInf, _ | _, NegInf => false
  | _, _ => true
  end.

Definition gtb (a b : number) : bool := ltb b a.

(** [Math.min(a, b)] and [Math.max(a, b)]: [NaN] as soon as one
    argument is. *)
Definition min (a b : number) : number :=
  match a, b with
  | NaN, _ | _, NaN => NaN
  | _, _ => if ltb b a then b else a
  end.

Definition max (a b : number) : number :=
  match a, b with
  | NaN, _ | _, NaN => NaN
  | _, _ => if ltb a b then b else a
  end.

(** [Math.abs(a)]. *)
Definition abs (a : number) : number :=
  match a with
  | NaN => NaN
  | PosInf | NegInf => PosInf
  | Fin q => Fin (Qabs q)
  end.

Definition isFinite (a : number) : bool :=
  match a with Fin _ => true | _ => false end.

(** An integer as a number. *)
Definition ofN (n : N) : number := Fin (inject_Z (Z.of_N n)).

End JsNumber.

(* ================================================================== *)
(** * The region and the canvas *)

(** [interface Selection]: a rectangle in percent of the image. *)
Module Selection.
Import JsNumber.

Record t : Type := mk {
  x : number;
  y : number;
  width : number;
  height : number
}.

End Selection.

(** The part of [HTMLCanvasElement] and of its 2D context that the mask
  needs. A canvas keeps the rectangles filled so far; the tone of a pixel
  is read off them. *)
Module Canvas.
Import JsNumber.

Record Fill : Type := mkFill {
  style : string;
  fx : Q;
  fy : Q;
  fw : Q;
  fh : Q
}.

Record t : Type := mk {
  width : N;
  height : N;
  fillStyle : string;
  fills : list Fill
}.

(** [document.createElement('canvas')] with its [width] and [height]
    set: nothing painted, the default fill style. *)
Definition create (w h : N) : t := mk w h "#000000" [].

Definition setFillStyle (c : t) (s : string) : t :=
  mk (width c) (height c) s (fills c).

(** [ctx.fillRect(x, y, w, h)]: ignored when an argument is not finite or
    when [w] or [h] is zero. *)
Definition fillRect (c : t) (x y w h : number) : t :=
  match x, y, w, h with
  | Fin x, Fin y, Fin w, Fin h =>
      if Qeq_bool w 0 || Qeq_bool h 0 then c
      else mk (width c) (height c) (fillStyle c)
             (fills c ++ [mkFill (fillStyle c) x y w h])
  | _, _, _, _ => c
  end.

Inductive Coverage : Type := Full | Partial | Outside.

Definition ofN (n : N) : Q := inject_Z (Z.of_N n).

(** How much of the pixel in column [col] and row [row], the unit square
    at [(col, row)], a filled rectangle covers. A negative extent fills
    towards the left or the top. *)
Definition coverage (f : Fill) (col row : N) : Coverage :=
  let x0 := Qmin (fx f) (fx f + fw f) in
  let x1 := Qmax (fx f) (fx f + fw f) in
  let y0 := Qmin (fy f) (fy f + fh f) in
  let y1 := Qmax (fy f) (fy f + fh f) in
  let c := ofN col in
  let r := ofN row in
  if Qle_bool x0 c && Qle_bool (c + 1) x1
     && Qle_bool y0 r && Qle_bool (r + 1) y1 then Full
  else if Qle_bool x1 c || Qle_bool (c + 1) x0
          || Qle_bool y1 r || Qle_bool (r + 1) y0 then Outside
  else Partial.

(** A pixel is transparent, of one fill style, or a blend of several
    (a pixel that a rectangle covers in part is anti-aliased). *)
Inductive Tone : Type :=
| Transparent
| Solid (style : string)
| Blended.

Definition paint (col row : N) (under : Tone) (f : Fill) : Tone :=
  match coverage f col row with
  | Full => Solid (style f)
  | Outside => under
  | Partial =>
      match under with
      | Solid s => if String.eqb s (style f) then under else Blended
      | _ => Blended
      end
  end.

(** The pixel in column [col] and row [row]; [None] outside the raster. *)
Definition pixel (c : t) (col row : N) : option Tone :=
  if ((col <? width c) && (row <? height c))%N then
    Some (fold_left (paint col row) (fills c) Transparent)
  else None.

End Canvas.

(* ================================================================== *)
(** * [utils/fileUtils.ts] *)

Module FileUtils.
Import Js.

(** A [File]: its declared MIME type and the URL that
    [URL.createObjectURL] hands out for it. *)
Record File : Type := mkFile {
  type : string;
  objectURL : string
}.

(** How [FileReader.readAsDataURL] ends: [onload] with the result
    string, or [onerror] with its event. *)
Inductive ReadOutcome : Type :=
| Loaded (result : string)
| ReadFailed (event : Thrown).

Record Encoded : Type := mkEncoded {
  base64 : string;
  mimeType : string
}.

Definition invalidFileFormat : string :=
  "Invalid file format. Could not split data URL.".
Definition noMimeType : string :=
  "Could not determine MIME type of the file.".

(** [fileToBase64(file)], given how the read of [file] ends. *)
Definition fileToBase64 (file : File) (read : ReadOutcome)
  : Settled Encoded :=
  match read with
  | ReadFailed event => Rejected event
  | Loaded result =>
      let segments := split "," result in
      let header := nth_error segments 0 in
      let base64 := nth_error segments 1 in
      if negb (truthy_opt header) || negb (truthy_opt base64) then
        Rejected (Error invalidFileFormat)
      else
        let header := match header with Some h => h | None => "" end in
        let base64 := match base64 with Some b => b | None => "" end in
        let mimeTypeMatch := matchColonSemicolon header in
        let mimeType :=
          match mimeTypeMatch with
          | Some group => group
          | None => type file
          end in
        if negb (truthy mimeType) then Rejected (Error noMimeType)
        else Resolved (mkEncoded base64 mimeType)
  end.

(** The format tag as the specification words it: the declared MIME type
    of the resource first, the header of the read result as the
    fallback. Compared with [fileToBase64] below. *)
Definition formatTag_declaredFirst (file : File) (header : string)
  : string :=
  if truthy (type file) then type file
  else match matchColonSemicolon header with
       | Some group => group
       | None => ""
       end.

Definition fileToBase64_declaredFirst (file : File) (read : ReadOutcome)
  : Settled Encoded :=
  match read with
  | ReadFailed event => Rejected event
  | Loaded result =>
      match split "," result with
      | header :: base64 :: _ =>
          if truthy header && truthy base64 then
            let tag := formatTag_declaredFirst file header in
            if truthy tag then Resolved (mkEncoded base64 tag)
            else Rejected (Error noMimeType)
          else Rejected (Error invalidFileFormat)
      | _ => Rejected (Error invalidFileFormat)
      end
  end.

End FileUtils.

(* ================================================================== *)
(** * [services/geminiService.ts] *)

Module GeminiService.
Import Js JsNumber.

(** ** The call shape of the remote service *)

(** An outbound content part. *)
Inductive Part : Type :=
| InlineData (data mimeType : string)
| Text (text : string).

Inductive Modality : Type := IMAGE.

Record GenerateContentParameters : Type := mkParameters {
  model : string;
  contents_parts : list Part;
  responseModalities : list Modality
}.

Record Blob : Type := mkBlob {
  blob_data : string;
  blob_mimeType : string
}.

(** A part of a response: every field is optional. *)
Record ResponsePart : Type := mkResponsePart {
  inlineData : option Blob;
  part_text : option string
}.

Record Content : Type := mkContent { parts : option (list ResponsePart) }.
Record Candidate : Type := mkCandidate { content : option Content }.
Record GenerateContentResponse : Type := mkResponse {
  candidates : option (list Candidate)
}.

(** [ai.models.generateContent]: the service as a capability. *)
Definition Service : Type :=
  GenerateContentParameters -> Settled GenerateContentResponse.

(** ** Asynchronous code that calls the service

    The calls dispatched so far, and how the code ends. *)
Definition Async (A : Type) : Type :=
  (list GenerateContentParameters * Settled A)%type.

Definition ret {A} (a : A) : Async A := ([], Resolved a).
Definition throw {A} (e : Thrown) : Async A := ([], Rejected e).

Definition bind {A B} (m : Async A) (k : A -> Async B) : Async B :=
  match m with
  | (calls, Resolved a) => let (more, r) := k a in (calls ++ more, r)
  | (calls, Rejected e) => (calls, Rejected e)
  end.

(** [try { m } catch (error) { handler error }]. *)
Definition tryCatch {A} (m : Async A) (handler : Thrown -> Async A)
  : Async A :=
  match m with
  | (calls, Resolved a) => (calls, Resolved a)
  | (calls, Rejected e) => let (more, r) := handler e in (calls ++ more, r)
  end.

Definition generateContent (ai : Service) (p : GenerateContentParameters)
  : Async GenerateContentResponse := ([p], ai p).

Notation "x <- m ;; k" := (bind m (fun x => k))
  (at level 61, m at next level, right associativity).

Definition calls {A} (m : Async A) : list GenerateContentParameters :=
  fst m.
Definition outcome {A} (m : Async A) : Settled A := snd m.

(** ** Reading a response *)

(** [response.candidates?.[0]?.content?.parts || []]. *)
Definition responseParts (response : GenerateContentResponse)
  : list ResponsePart :=
  match candidates response with
  | Some (first :: _) =>
      match content first with
      | Some c => match parts c with Some ps => ps | None => [] end
      | None => []
      end
  | _ => []
  end.

(** The [for] loop over the parts: the data of the first part that has
    an [inlineData], or [None] when the loop runs to its end. *)
Fixpoint firstInlineData (ps : list ResponsePart) : option string :=
  match ps with
  | [] => None
  | part :: rest =>
      match inlineData part with
      | Some blob => Some (blob_data blob)
      | None => firstInlineData rest
      end
  end.

Definition noImageGenerated : string :=
  "Nenhuma imagem foi gerada na resposta. O prompt pode ter sido bloqueado ou ser inválido.".
Definition editFailed : string :=
  "Falha ao editar a imagem. A solicitação pode ter sido bloqueada devido a políticas de segurança. Tente um prompt ou imagem diferente.".
Definition editSelectionFailed : string :=
  "Falha ao editar a área selecionada. A solicitação pode ter sido bloqueada. Tente um prompt ou imagem diferente.".
Definition noCanvasContext : string :=
  "Não foi possível obter o contexto do canvas para criar a máscara.".

Definition modelName : string := "gemini-2.5-flash-image".

(** ** [editImageWithPrompt] *)

Record ReferenceImage : Type := mkReference {
  ref_base64 : string;
  ref_mimeType : string
}.

(** The [contentParts] array as it stands when the call is made. *)
Definition promptContentParts (base64ImageData mimeType prompt : string)
  (referenceImage : option ReferenceImage) : list Part :=
  let contentParts := [InlineData base64ImageData mimeType] in
  let contentParts :=
    match referenceImage with
    | Some r =>
        contentParts ++ [InlineData (ref_base64 r) (ref_mimeType r)]
    | None => contentParts
    end in
  contentParts ++ [Text prompt].

Definition editImageWithPrompt (ai : Service)
  (base64ImageData mimeType prompt : string)
  (referenceImage : option ReferenceImage) : Async string :=
  tryCatch
    (response <- generateContent ai
       (mkParameters modelName
          (promptContentParts base64ImageData mimeType prompt
             referenceImage)
          [IMAGE]) ;;
     match firstInlineData (responseParts response) with
     | Some data => ret data
     | None => throw (Error noImageGenerated)
     end)
    (fun _ => throw (Error editFailed)).

(** ** [editImageWithSelection] *)

(** What the browser does for the mask: decoding an image from its data
    URL ([None] when [onerror] fires, otherwise its width and height),
    giving a 2D context or not, and encoding a canvas as a data URL. *)
Record Browser : Type := mkBrowser {
  decodeImage : string -> option (N * N);
  getContext2d : bool;
  toDataURL : Canvas.t -> string -> string
}.

(** The promise around [image.onload] and [image.onerror]. *)
Definition imageLoaded (browser : Browser) (src : string)
  : Async (N * N) :=
  match decodeImage browser src with
  | Some size => ret size
  | None => throw NotAnError
  end.

(** Lines 105 to 114: the black background, then the white rectangle of
    the selection scaled to the canvas. *)
Definition drawMask (canvas : Canvas.t) (selection : Selection.t)
  : Canvas.t :=
  let canvas := Canvas.setFillStyle canvas "black" in
  let canvas :=
    Canvas.fillRect canvas (Fin 0) (Fin 0)
      (ofN (Canvas.width canvas)) (ofN (Canvas.height canvas)) in
  let maskX :=
    mul (div (Selection.x selection) (Fin 100))
      (ofN (Canvas.width canvas)) in
  let maskY :=
    mul (div (Selection.y selection) (Fin 100))
      (ofN (Canvas.height canvas)) in
  let maskWidth :=
    mul (div (Selection.width selection) (Fin 100))
      (ofN (Canvas.width canvas)) in
  let maskHeight :=
    mul (div (Selection.height selection) (Fin 100))
      (ofN (Canvas.height canvas)) in
  let canvas := Canvas.setFillStyle canvas "white" in
  Canvas.fillRect canvas maskX maskY maskWidth maskHeight.

(** [canvas.toDataURL('image/png').split(',')[1]]; a data URL always has
    a comma, so the index is in range. *)
Definition maskBase64 (browser : Browser) (canvas : Canvas.t) : string :=
  nth 1 (split "," (toDataURL browser canvas "image/png")) "".

Definition selectionContentParts
  (base64ImageData mimeType prompt mask : string) : list Part :=
  [ InlineData base64ImageData mimeType;
    InlineData mask "image/png";
    Text prompt ].

Definition editImageWithSelection (browser : Browser) (ai : Service)
  (base64ImageData mimeType prompt : string) (selection : Selection.t)
  : Async string :=
  tryCatch
    (size <- imageLoaded browser
       (String.append "data:"
          (String.append mimeType
             (String.append ";base64," base64ImageData))) ;;
     let canvas := Canvas.create (fst size) (snd size) in
     if negb (getContext2d browser) then throw (Error noCanvasContext)
     else
       let canvas := drawMask canvas selection in
       let mask := maskBase64 browser canvas in
       response <- generateContent ai
         (mkParameters modelName
            (selectionContentParts base64ImageData mimeType prompt mask)
            [IMAGE]) ;;
       match firstInlineData (responseParts response) with
       | Some data => ret data
       | None => throw (Error noImageGenerated)
       end)
    (fun _ => throw (Error editSelectionFailed)).

End GeminiService.

(* ================================================================== *)
(** * [components/ImageCard.tsx] *)

(** [getBoundingClientRect()] of the container and the position of a
  mouse event: finite numbers, by their types in the DOM. *)
Module DOMRect.
Record t : Type := mk { left : Q; top : Q; width : Q; height : Q }.
End DOMRect.

Module MouseEvent.
Record t : Type := mk { clientX : Q; clientY : Q }.
End MouseEvent.

Module ImageCard.
Import Js JsNumber.

Record Point : Type := mkPoint { px : number; py : number }.

(** The props that the handlers and the action bar read.
    [onSelectionChange] and [onSelectAreaToggle] are handlers of the
    parent: here, whether they are given. *)
Record Props : Type := mkProps {
  imageUrl : option string;
  isLoading : bool;
  isSelecting : bool;
  selection : option Selection.t;
  onSelectionChange : bool;
  onSelectAreaToggle : bool;
  inpaintPrompt : option string
}.

(** The state of the component: [isDrawing] and [startPos]. *)
Record State : Type := mkState {
  isDrawing : bool;
  startPos : Point
}.

Definition initial : State := mkState false (mkPoint (Fin 0) (Fin 0)).

(** [containerRef.current] is [None] before the container is mounted. *)
Definition getRelativeCoords (container : option DOMRect.t)
  (e : MouseEvent.t) : option Point :=
  match container with
  | None => None
  | Some rect =>
      let x :=
        max (Fin 0)
          (min (Fin 100)
             (mul
                (div (sub (Fin (MouseEvent.clientX e))
                        (Fin (DOMRect.left rect)))
                   (Fin (DOMRect.width rect)))
                (Fin 100))) in
      let y :=
        max (Fin 0)
          (min (Fin 100)
             (mul
                (div (sub (Fin (MouseEvent.clientY e))
                        (Fin (DOMRect.top rect)))
                   (Fin (DOMRect.height rect)))
                (Fin 100))) in
      Some (mkPoint x y)
  end.

(** Each handler gives the next state of the component and the
    selection it passes to [onSelectionChange], if it calls it. *)
Definition Handled : Type := (State * option Selection.t)%type.

Definition handleMouseDown (props : Props) (st : State)
  (container : option DOMRect.t) (e : MouseEvent.t) : Handled :=
  if negb (isSelecting props) || negb (onSelectionChange props) then
    (st, None)
  else
    match getRelativeCoords container e with
    | None => (st, None)
    | Some coords =>
        (mkState true coords,
         Some (Selection.mk (px coords) (py coords) (Fin 0) (Fin 0)))
    end.

Definition handleMouseMove (props : Props) (st : State)
  (container : option DOMRect.t) (e : MouseEvent.t) : Handled :=
  if negb (isDrawing st) || negb (onSelectionChange props) then
    (st, None)
  else
    match getRelativeCoords container e with
    | None => (st, None)
    | Some currentCoords =>
        let x := min (px (startPos st)) (px currentCoords) in
        let y := min (py (startPos st)) (py currentCoords) in
        let width := abs (sub (px (startPos st)) (px currentCoords)) in
        let height := abs (sub (py (startPos st)) (py currentCoords)) in
        (st, Some (Selection.mk x y width height))
    end.

Definition handleMouseUp (st : State) : State :=
  mkState false (startPos st).

(** ** What the action bar renders *)

(** [imageUrl && !isLoading]. *)
Definition showActions (props : Props) : bool :=
  truthy_opt (imageUrl props) && negb (isLoading props).

(** The condition of line 136, under which the bar shows the inpaint
    prompt with its two buttons instead of the download and selection
    buttons. *)
Definition showInpaintPanel (props : Props) : bool :=
  isSelecting props
  && match selection props with
     | Some s =>
         gtb (Selection.width s) (Fin 0)
         && gtb (Selection.height s) (Fin 0)
     | None => false
     end.

(** The button wired to [onInpaintRequest] is on the page and not
    disabled. *)
Definition inpaintButtonEnabled (props : Props) : bool :=
  showActions props && showInpaintPanel props
  && negb (isLoading props
           || negb (match inpaintPrompt props with
                    | Some text => truthy (trim text)
                    | None => false
                    end)).

(** The inpaint prompt can be typed into. *)
Definition inpaintPromptEnabled (props : Props) : bool :=
  showActions props && showInpaintPanel props && negb (isLoading props).

(** A button wired to [onSelectAreaToggle] is on the page, is not
    disabled, and the handler is given. *)
Definition toggleButtonEnabled (props : Props) : bool :=
  showActions props && onSelectAreaToggle props
  && negb (isLoading props).

End ImageCard.

(* ================================================================== *)
(** * [App.tsx] *)

Module App.
Import Js JsNumber.

Record OriginalImage : Type := mkImage {
  url : string;
  base64 : string;
  mimeType : string
}.

(** The nine [useState] cells of the component. *)
Record State : Type := mkState {
  originalImage : option OriginalImage;
  referenceImage : option OriginalImage;
  editedImage : option string;
  prompt : string;
  inpaintPrompt : string;
  isLoading : bool;
  error : option string;
  isSelecting : bool;
  selection : option Selection.t
}.

Definition initial : State :=
  mkState None None None "" "" false None false None.

Definition setOriginalImage (v : option OriginalImage) (s : State) :=
  mkState v (referenceImage s) (editedImage s) (prompt s)
    (inpaintPrompt s) (isLoading s) (error s) (isSelecting s)
    (selection s).
Definition setReferenceImage (v : option OriginalImage) (s : State) :=
  mkState (originalImage s) v (editedImage s) (prompt s)
    (inpaintPrompt s) (isLoading s) (error s) (isSelecting s)
    (selection s).
Definition setEditedImage (v : option string) (s : State) :=
  mkState (originalImage s) (referenceImage s) v (prompt s)
    (inpaintPrompt s) (isLoading s) (error s) (isSelecting s)
    (selection s).
Definition setPrompt (v : string) (s : State) :=
  mkState (originalImage s) (referenceImage s) (editedImage s) v
    (inpaintPrompt s) (isLoading s) (error s) (isSelecting s)
    (selection s).
Definition setInpaintPrompt (v : string) (s : State) :=
  mkState (originalImage s) (referenceImage s) (editedImage s) (prompt s)
    v (isLoading s) (error s) (isSelecting s) (selection s).
Definition setIsLoading (v : bool) (s : State) :=
  mkState (originalImage s) (referenceImage s) (editedImage s) (prompt s)
    (inpaintPrompt s) v (error s) (isSelecting s) (selection s).
Definition setError (v : option string) (s : State) :=
  mkState (originalImage s) (referenceImage s) (editedImage s) (prompt s)
    (inpaintPrompt s) (isLoading s) v (isSelecting s) (selection s).
Definition setIsSelecting (v : bool) (s : State) :=
  mkState (originalImage s) (referenceImage s) (editedImage s) (prompt s)
    (inpaintPrompt s) (isLoading s) (error s) v (selection s).
Definition setSelection (v : option Selection.t) (s : State) :=
  mkState (originalImage s) (referenceImage s) (editedImage s) (prompt s)
    (inpaintPrompt s) (isLoading s) (error s) (isSelecting s) v.

Definition invalidFileType : string :=
  "Tipo de arquivo inválido. Por favor, envie uma imagem.".
Definition cannotProcessFile : string :=
  "Não foi possível processar o arquivo enviado.".
Definition cannotProcessReference : string :=
  "Não foi possível processar o arquivo de referência.".
Definition needImageAndPrompt : string :=
  "Por favor, envie uma imagem e insira uma instrução de edição.".
Definition needAreaAndPrompt : string :=
  "Por favor, selecione uma área e insira uma instrução para editar.".
Definition cannotProcessEdited : string :=
  "Não foi possível processar a imagem editada existente.".
Definition unknownError : string := "Ocorreu um erro desconhecido.".

(** [`data:image/png;base64,${newImageBase64}`]. *)
Definition pngDataUrl (newImageBase64 : string) : string :=
  String.append "data:image/png;base64," newImageBase64.

(** [err instanceof Error ? err.message : 'Ocorreu um erro desconhecido.'] *)
Definition errorMessage (err : Thrown) : string :=
  match err with
  | Error message => message
  | NotAnError => unknownError
  end.

(** ** The uploads

    Up to the [await] of [fileToBase64]: the next state and, when the
    read is started, the file being read. *)
Definition handleImageUpload_begin (file : option FileUtils.File)
  (s : State) : State * option FileUtils.File :=
  match file with
  | None => (s, None)
  | Some f =>
      if negb (startsWith "image/" (FileUtils.type f)) then
        (setError (Some invalidFileType) s, None)
      else
        let s := setError None s in
        let s := setEditedImage None s in
        let s := setIsSelecting false s in
        let s := setSelection None s in
        (s, Some f)
  end.

(** From the [await] on, in the state the component then has. *)
Definition handleImageUpload_resume (f : FileUtils.File)
  (read : FileUtils.ReadOutcome) (s : State) : State :=
  match FileUtils.fileToBase64 f read with
  | Resolved encoded =>
      setOriginalImage
        (Some (mkImage (FileUtils.objectURL f)
                 (FileUtils.base64 encoded)
                 (FileUtils.mimeType encoded))) s
  | Rejected _ => setError (Some cannotProcessFile) s
  end.

(** The handler run without anything in between. *)
Definition handleImageUpload (file : option FileUtils.File)
  (read : FileUtils.ReadOutcome) (s : State) : State :=
  match handleImageUpload_begin file s with
  | (s, Some f) => handleImageUpload_resume f read s
  | (s, None) => s
  end.

Definition handleReferenceImageUpload_begin
  (file : option FileUtils.File) (s : State)
  : State * option FileUtils.File :=
  match file with
  | None => (s, None)
  | Some f =>
      if negb (startsWith "image/" (FileUtils.type f)) then
        (setError (Some invalidFileType) s, None)
      else (setError None s, Some f)
  end.

Definition handleReferenceImageUpload_resume (f : FileUtils.File)
  (read : FileUtils.ReadOutcome) (s : State) : State :=
  match FileUtils.fileToBase64 f read with
  | Resolved encoded =>
      setReferenceImage
        (Some (mkImage (FileUtils.objectURL f)
                 (FileUtils.base64 encoded)
                 (FileUtils.mimeType encoded))) s
  | Rejected _ => setError (Some cannotProcessReference) s
  end.

(** ** The whole-image edit *)

(** The arguments of a call of [editImageWithPrompt]. *)
Record PromptCall : Type := mkPromptCall {
  pc_base64 : string;
  pc_mimeType : string;
  pc_prompt : string;
  pc_reference : option GeminiService.ReferenceImage
}.

(** Up to the [await]: the next state and the call made, if any. *)
Definition handleEditRequest_begin (s : State)
  : State * option PromptCall :=
  match originalImage s with
  | Some original =>
      if negb (truthy (trim (prompt s))) then
        (setError (Some needImageAndPrompt) s, None)
      else
        let s' := setIsLoading true s in
        let s' := setError None s' in
        let s' := setEditedImage None s' in
        let s' := setIsSelecting false s' in
        let s' := setSelection None s' in
        let finalPrompt := trim (prompt s) in
        (s',
         Some (mkPromptCall (base64 original) (mimeType original)
                 finalPrompt
                 (option_map
                    (fun r =>
                       GeminiService.mkReference (base64 r) (mimeType r))
                    (referenceImage s))))
  | None => (setError (Some needImageAndPrompt) s, None)
  end.

(** From the [await] on: [try], [catch] and [finally]. *)
Definition handleEditRequest_resume (result : Settled string)
  (s : State) : State :=
  let s :=
    match result with
    | Resolved newImageBase64 =>
        setEditedImage (Some (pngDataUrl newImageBase64)) s
    | Rejected err => setError (Some (errorMessage err)) s
    end in
  setIsLoading false s.

Definition runPromptCall (ai : GeminiService.Service) (c : PromptCall)
  : GeminiService.Async string :=
  GeminiService.editImageWithPrompt ai (pc_base64 c) (pc_mimeType c)
    (pc_prompt c) (pc_reference c).

(** ** The region edit *)

Record SelectionCall : Type := mkSelectionCall {
  sc_base64 : string;
  sc_mimeType : string;
  sc_prompt : string;
  sc_selection : Selection.t
}.

Definition handleInpaintRequest_begin (s : State)
  : State * option SelectionCall :=
  match editedImage s, selection s with
  | Some edited, Some region =>
      if negb (truthy edited) || negb (truthy (trim (inpaintPrompt s)))
      then (setError (Some needAreaAndPrompt) s, None)
      else
        let s' := setIsLoading true s in
        let s' := setError None s' in
        let segments := split "," edited in
        let header := nth 0 segments "" in
        let base64 := nth_error segments 1 in
        let mimeTypeMatch := matchColonSemicolon header in
        match base64, mimeTypeMatch with
        | Some payload, Some mimeType =>
            if truthy payload then
              (s',
               Some (mkSelectionCall payload mimeType (inpaintPrompt s)
                       region))
            else
              (setIsLoading false
                 (setError (Some cannotProcessEdited) s'), None)
        | _, _ =>
            (setIsLoading false
               (setError (Some cannotProcessEdited) s'), None)
        end
  | _, _ => (setError (Some needAreaAndPrompt) s, None)
  end.

Definition handleInpaintRequest_resume (result : Settled string)
  (s : State) : State :=
  let s :=
    match result with
    | Resolved newImageBase64 =>
        let s := setEditedImage (Some (pngDataUrl newImageBase64)) s in
        let s := setIsSelecting false s in
        let s := setSelection None s in
        setInpaintPrompt "" s
    | Rejected err => setError (Some (errorMessage err)) s
    end in
  setIsLoading false s.

Definition runSelectionCall (browser : GeminiService.Browser)
  (ai : GeminiService.Service) (c : SelectionCall)
  : GeminiService.Async string :=
  GeminiService.editImageWithSelection browser ai (sc_base64 c)
    (sc_mimeType c) (sc_prompt c) (sc_selection c).

(** ** Selection mode *)

Definition handleSelectAreaToggle (s : State) : State :=
  let nextState := negb (isSelecting s) in
  let s :=
    if negb nextState then setInpaintPrompt "" (setSelection None s)
    else s in
  setIsSelecting nextState s.

(** ** What the page renders *)

(** The "Gerar" button of the instructions panel is not disabled. *)
Definition editButtonEnabled (s : State) : bool :=
  negb (isLoading s
        || match originalImage s with Some _ => false | None => true end
        || negb (truthy (prompt s))).

(** The file inputs and the prompt are disabled while loading. *)
Definition inputsEnabled (s : State) : bool := negb (isLoading s).

(** The props of the "Imagem Editada" card. *)
Definition editedCardProps (s : State) : ImageCard.Props :=
  ImageCard.mkProps (editedImage s) (isLoading s) (isSelecting s)
    (selection s) true true (Some (inpaintPrompt s)).

End App.

(* ================================================================== *)
(** * The page at work

  The component tree of [App.tsx] driven by what the user can do on the
  rendered page and by the settlement of what is awaited. A control that
  is disabled or not rendered passes no event to its handler. *)

Module Page.
Import Js JsNumber.

(** What a handler is waiting for at its [await]. *)
Inductive Pending : Type :=
| ReadingImage (f : FileUtils.File)
| ReadingReference (f : FileUtils.File)
| Editing (c : App.PromptCall)
| Inpainting (c : App.SelectionCall).

(** What the outside does when an awaited promise settles. *)
Record World : Type := mkWorld {
  read : FileUtils.ReadOutcome;
  browser : GeminiService.Browser;
  ai : GeminiService.Service
}.

Inductive Event : Type :=
| ChooseImage (file : option FileUtils.File)
| ChooseReference (file : option FileUtils.File)
| TypePrompt (text : string)
| TypeInpaintPrompt (text : string)
| ClickGenerate
| ClickInpaint
| ClickSelectArea
| MouseDown (container : option DOMRect.t) (e : MouseEvent.t)
| MouseMove (container : option DOMRect.t) (e : MouseEvent.t)
| MouseUp
| Settle (i : nat) (w : World).

Record t : Type := mk {
  app : App.State;
  card : ImageCard.State;
  pending : list Pending
}.

Definition initial : t := mk App.initial ImageCard.initial [].

(** A click on the "Gerar" button of the instructions panel. *)
Definition clickGenerate (s : App.State)
  : App.State * option App.PromptCall :=
  if App.editButtonEnabled s then App.handleEditRequest_begin s
  else (s, None).

(** A click on the "Gerar" button of the edited card. *)
Definition clickInpaint (s : App.State)
  : App.State * option App.SelectionCall :=
  if ImageCard.inpaintButtonEnabled (App.editedCardProps s) then
    App.handleInpaintRequest_begin s
  else (s, None).

Definition queue {A} (wrap : A -> Pending) (started : option A)
  : list Pending :=
  match started with
  | Some a => [wrap a]
  | None => []
  end.

Fixpoint removeNth {A} (i : nat) (l : list A) : list A :=
  match i, l with
  | _, [] => []
  | O, _ :: rest => rest
  | S j, a :: rest => a :: removeNth j rest
  end.

(** [onSelectionChange] of the edited card is [setSelection]. *)
Definition deliver (emitted : option Selection.t) (s : App.State)
  : App.State :=
  match emitted with
  | Some region => App.setSelection (Some region) s
  | None => s
  end.

(** One event: the next page and the calls that went out to the remote
    service. *)
Definition step (p : t) (ev : Event)
  : t * list GeminiService.GenerateContentParameters :=
  match ev with
  | ChooseImage file =>
      if App.inputsEnabled (app p) then
        let (s, started) := App.handleImageUpload_begin file (app p) in
        (mk s (card p) (pending p ++ queue ReadingImage started), [])
      else (p, [])
  | ChooseReference file =>
      if App.inputsEnabled (app p) then
        let (s, started) :=
          App.handleReferenceImageUpload_begin file (app p) in
        (mk s (card p) (pending p ++ queue ReadingReference started), [])
      else (p, [])
  | TypePrompt text =>
      if App.inputsEnabled (app p) then
        (mk (App.setPrompt text (app p)) (card p) (pending p), [])
      else (p, [])
  | TypeInpaintPrompt text =>
      if ImageCard.inpaintPromptEnabled (App.editedCardProps (app p)) then
        (mk (App.setInpaintPrompt text (app p)) (card p) (pending p), [])
      else (p, [])
  | ClickGenerate =>
      let (s, started) := clickGenerate (app p) in
      (mk s (card p) (pending p ++ queue Editing started), [])
  | ClickInpaint =>
      let (s, started) := clickInpaint (app p) in
      (mk s (card p) (pending p ++ queue Inpainting started), [])
  | ClickSelectArea =>
      if ImageCard.toggleButtonEnabled (App.editedCardProps (app p)) then
        (mk (App.handleSelectAreaToggle (app p)) (card p) (pending p), [])
      else (p, [])
  | MouseDown container e =>
      let (st, emitted) :=
        ImageCard.handleMouseDown (App.editedCardProps (app p)) (card p)
          container e in
      (mk (deliver emitted (app p)) st (pending p), [])
  | MouseMove container e =>
      let (st, emitted) :=
        ImageCard.handleMouseMove (App.editedCardProps (app p)) (card p)
          container e in
      (mk (deliver emitted (app p)) st (pending p), [])
  | MouseUp =>
      (mk (app p) (ImageCard.handleMouseUp (card p)) (pending p), [])
  | Settle i w =>
      match nth_error (pending p) i with
      | None => (p, [])
      | Some waiting =>
          let rest := removeNth i (pending p) in
          match waiting with
          | ReadingImage f =>
              (mk (App.handleImageUpload_resume f (read w) (app p))
                 (card p) rest, [])
          | ReadingReference f =>
              (mk (App.handleReferenceImageUpload_resume f (read w)
                     (app p))
                 (card p) rest, [])
          | Editing c =>
              let r := App.runPromptCall (ai w) c in
              (mk (App.handleEditRequest_resume
                     (GeminiService.outcome r) (app p))
                 (card p) rest,
               GeminiService.calls r)
          | Inpainting c =>
              let r := App.runSelectionCall (browser w) (ai w) c in
              (mk (App.handleInpaintRequest_resume
                     (GeminiService.outcome r) (app p))
                 (card p) rest,
               GeminiService.calls r)
          end
      end
  end.

(** A sequence of events from a page: the page reached and all the calls
    that went out, in order. *)
Fixpoint run (p : t) (evs : list Event)
  : t * list GeminiService.GenerateContentParameters :=
  match evs with
  | [] => (p, [])
  | ev :: rest =>
      let (p1, out1) := step p ev in
      let (p2, out2) := run p1 rest in
      (p2, out1 ++ out2)
  end.

Definition reached (evs : list Event) : t := fst (run initial evs).





End Page.

(* ================================================================== *)
(** * Notions used by the statements *)

Module Stated.
Import JsNumber.

(** The percentage of [pos] along an extent that starts at [origin]. *)
Definition percentOf (pos origin extent : Q) : Q :=
  (pos - origin) / extent * 100.

(** A rational clamped to the interval from 0 to 100. *)
Definition clampPercent (q : Q) : Q :=
  if Qltb q 0 then 0 else if Qltb 100 q then 100 else q.

(** The region invariant, as JavaScript would evaluate it. *)
Definition inBounds (r : Selection.t) : bool :=
  leb (Fin 0) (Selection.width r)
  && leb (Fin 0) (Selection.height r)
  && leb (add (Selection.x r) (Selection.width r)) (Fin 100)
  && leb (add (Selection.y r) (Selection.height r)) (Fin 100).

(** A region with no area. *)
Definition degenerate (r : Selection.t) : bool :=
  match Selection.width r, Selection.height r with
  | Fin w, Fin h => Qeq_bool w 0 || Qeq_bool h 0
  | _, _ => false
  end.



(** The first two segments of a read result, the empty string standing for
    a missing or empty one. *)
Definition headerOf (result : string) : string :=
  nth 0 (Js.split "," result) "".
Definition payloadOf (result : string) : string :=
  nth 1 (Js.split "," result) "".

(** No [;] and no line terminator among the units of [s]. *)
Definition plainTag (s : string) : Prop :=
  forall c, In c (list_ascii_of_string s) ->
            c <> ";"%char /\ Js.isLineTerminator c = false.

Section Requests.
Import Js GeminiService.

(** The request of [editImageWithPrompt]. *)
Definition promptRequest (base64ImageData mimeType prompt : string)
  (referenceImage : option ReferenceImage) : GenerateContentParameters :=
  mkParameters modelName
    (promptContentParts base64ImageData mimeType prompt referenceImage)
    [IMAGE].

(** The request of [editImageWithSelection] for a mask. *)
Definition selectionRequest (base64ImageData mimeType prompt mask : string)
  : GenerateContentParameters :=
  mkParameters modelName
    (selectionContentParts base64ImageData mimeType prompt mask) [IMAGE].

(** How both functions read what the service answers: the first inline
    data of the response, and one and the same error for a response
    without any and for a call that fails. *)
Definition extracted (failure : string)
  (answer : Settled GenerateContentResponse) : Settled string :=
  match answer with
  | Resolved response =>
      match firstInlineData (responseParts response) with
      | Some data => Resolved data
      | None => Rejected (Error failure)
      end
  | Rejected _ => Rejected (Error failure)
  end.

(** The data URL from which [editImageWithSelection] decodes the base
    image. *)
Definition baseImageUrl (base64ImageData mimeType : string) : string :=
  String.append "data:"
    (String.append mimeType (String.append ";base64," base64ImageData)).

(** The mask payload for a base image of a given size. *)
Definition maskFor (browser : Browser) (size : N * N)
  (selection : Selection.t) : string :=
  maskBase64 browser
    (drawMask (Canvas.create (fst size) (snd size)) selection).

End Requests.


(** A handler of the controller leaves the stored region as it is or
    clears it. *)
Definition keepsOrClears (s s' : App.State) : Prop :=
  App.selection s' = App.selection s \/ App.selection s' = None.

(** The rectangle of a region scaled to a raster of [W] by [H] pixels, as
    a white fill. *)
Definition scaledFill (x y w h : Q) (W H : N) : Canvas.Fill :=
  Canvas.mkFill "white"
    (x / 100 * Canvas.ofN W) (y / 100 * Canvas.ofN H)
    (w / 100 * Canvas.ofN W) (h / 100 * Canvas.ofN H).

(** The fill of the whole raster in black. *)
Definition backgroundFill (W H : N) : Canvas.Fill :=
  Canvas.mkFill "black" 0 0 (Canvas.ofN W) (Canvas.ofN H).

(** The unit square of a pixel lies within a rectangle, or has no inner
    point in common with it. *)
Definition pixelWithin (f : Canvas.Fill) (col row : N) : Prop :=
  Canvas.fx f <= Canvas.ofN col
  /\ Canvas.ofN col + 1 <= Canvas.fx f + Canvas.fw f
  /\ Canvas.fy f <= Canvas.ofN row
  /\ Canvas.ofN row + 1 <= Canvas.fy f + Canvas.fh f.

Definition pixelApart (f : Canvas.Fill) (col row : N) : Prop :=
  Canvas.ofN col + 1 <= Canvas.fx f
  \/ Canvas.fx f + Canvas.fw f <= Canvas.ofN col
  \/ Canvas.ofN row + 1 <= Canvas.fy f
  \/ Canvas.fy f + Canvas.fh f <= Canvas.ofN row.

(** The region of the example of the specification, and whether a pixel
    lies in the rows and columns from 25 up to 75, 75 left out. *)
Definition quarterRegion : Selection.t :=
  Selection.mk (JsNumber.Fin 25) (JsNumber.Fin 25) (JsNumber.Fin 50)
    (JsNumber.Fin 50).

Definition inQuarter (col row : N) : bool :=
  ((25 <=? col) && (col <? 75) && (25 <=? row) && (row <? 75))%N.

(** A region edit that is awaited has a region of positive width and
    height. *)
Definition positiveRegion (r : Selection.t) : Prop :=
  JsNumber.gtb (Selection.width r) (JsNumber.Fin 0) = true
  /\ JsNumber.gtb (Selection.height r) (JsNumber.Fin 0) = true.

Definition pendingOk (w : Page.Pending) : Prop :=
  match w with
  | Page.Inpainting c => positiveRegion (App.sc_selection c)
  | _ => True
  end.


(** No part of a response before a given one carries inline data. *)
Definition noInlineData (ps : list GeminiService.ResponsePart) : Prop :=
  Forall (fun part => GeminiService.inlineData part = None) ps.

End Stated.

(* ================================================================== *)
(** * Inputs for the examples *)

Module Examples.
Import Js JsNumber.

Definition photo : FileUtils.File := FileUtils.mkFile "image/png" "blob:photo".

(** A region of width zero. *)
Definition line : Selection.t :=
  Selection.mk (Fin 10) (Fin 10) (Fin 0) (Fin 30).

(** An edited image is shown, selection mode is on, the region is a
    line and an instruction is typed. *)
Definition lineSelected : App.State :=
  App.mkState None None (Some "data:image/png;base64,QUJD") ""
    "make it blue" false None true (Some line).

(** An edit is under way: the image and the instruction are there and
    [isLoading] is set. *)
Definition loading : App.State :=
  App.mkState (Some (App.mkImage "blob:photo" "QUJD" "image/png")) None
    None "remove the background" "" true None false None.

(** An edited image is shown while a region is selected. *)
Definition selecting : App.State :=
  App.mkState (Some (App.mkImage "blob:photo" "QUJD" "image/png")) None
    (Some "data:image/png;base64,REVG") "remove the background" "" false
    None true (Some (Selection.mk (Fin 10) (Fin 10) (Fin 20) (Fin 30))).

(** A response whose image part declares JPEG. *)
Definition jpegAnswer : GeminiService.GenerateContentResponse :=
  GeminiService.mkResponse
    (Some
       [GeminiService.mkCandidate
          (Some
             (GeminiService.mkContent
                (Some
                   [GeminiService.mkResponsePart None (Some "Here it is.");
                    GeminiService.mkResponsePart
                      (Some (GeminiService.mkBlob "REVG" "image/jpeg"))
                      None])))]).

Definition service : GeminiService.Service := fun _ => Resolved jpegAnswer.

Definition browser : GeminiService.Browser :=
  GeminiService.mkBrowser (fun _ => Some (100, 100)%N) true
    (fun _ _ => "data:image/png;base64,TUFTSw==").

Definition world : Page.World :=
  Page.mkWorld (FileUtils.Loaded "data:image/png;base64,QUJD") browser
    service.


Definition surface : DOMRect.t := DOMRect.mk 0 0 400 400.

(** An upload, a whole-image edit, then a drag on the edited image from
    (300, 300) up and to the left to (100, 200). *)
Definition dragUpLeft : list Page.Event :=
  [ Page.ChooseImage (Some photo);
    Page.Settle 0 world;
    Page.TypePrompt "remove the background";
    Page.ClickGenerate;
    Page.Settle 0 world;
    Page.ClickSelectArea;
    Page.MouseDown (Some surface) (MouseEvent.mk 300 300);
    Page.MouseMove (Some surface) (MouseEvent.mk 100 200) ].

(** The same, then an instruction for the region and a click on the
    "Gerar" button of the edited card. *)
Definition dragThenInpaint : list Page.Event :=
  dragUpLeft
  ++ [ Page.TypeInpaintPrompt "make it blue"; Page.ClickInpaint ].


End Examples.

(* ================================================================== *)
(** * The download, and further notions used by the statements *)

From Stdlib Require DecimalString.

Module Further.
Import Js JsNumber Stated.

(** ** [handleDownload] of [App.tsx]

    The link that the handler builds and clicks: its [href] and its
    [download] attribute. [now] is [Date.now()], a count of
    milliseconds, which the template literal prints in decimal. *)
Record Download : Type := mkDownload {
  href : string;
  download : string
}.

Definition handleDownload (now : N) (s : App.State) : option Download :=
  match App.editedImage s with
  | Some edited =>
      if negb (truthy edited) then None
      else
        Some
          (mkDownload edited
             (String.append "edited-image-"
                (String.append
                   (DecimalString.NilZero.string_of_uint (N.to_uint now))
                   ".png")))
  | None => None
  end.

(** The "Baixar" button is on the page and not disabled. *)
Definition downloadButtonEnabled (s : App.State) : bool :=
  ImageCard.showActions (App.editedCardProps s)
  && negb (ImageCard.showInpaintPanel (App.editedCardProps s))
  && negb (App.isLoading s).

(** ** Notions *)

(** No comma among the units of [s]. *)
Definition noComma (s : string) : Prop :=
  forall c, In c (list_ascii_of_string s) -> c <> ","%char.


(** A coordinate of the region is not finite. *)
Definition notFinite (r : Selection.t) : Prop :=
  isFinite (Selection.x r) && isFinite (Selection.y r)
  && isFinite (Selection.width r) && isFinite (Selection.height r)
  = false.

(** A rational that is an integer. *)
Definition integral (q : Q) : Prop := exists z : Z, q == inject_Z z.

(** A rectangle whose corner and extents are whole pixels. *)
Definition onPixelGrid (f : Canvas.Fill) : Prop :=
  integral (Canvas.fx f) /\ integral (Canvas.fy f)
  /\ integral (Canvas.fw f) /\ integral (Canvas.fh f).


Definition isMouseMove (ev : Page.Event) : bool :=
  match ev with
  | Page.MouseMove _ _ => true
  | _ => false
  end.

(** The edited image is none, or a PNG data URL. *)
Definition pngEdited (s : App.State) : Prop :=
  App.editedImage s = None
  \/ exists data, App.editedImage s = Some (App.pngDataUrl data).

(** A stored image has a payload and a MIME type. *)
Definition imageOk (i : App.OriginalImage) : Prop :=
  App.base64 i <> "" /\ App.mimeType i <> "".

Definition storedImagesOk (s : App.State) : Prop :=
  (forall i, App.originalImage s = Some i -> imageOk i)
  /\ (forall i, App.referenceImage s = Some i -> imageOk i).

(** Selection mode is on only over an edited image. *)
Definition modeOk (s : App.State) : Prop :=
  App.isSelecting s = true -> App.editedImage s <> None.

(** The calls that are awaited carry what the service needs. *)
Definition promptCallOk (c : App.PromptCall) : Prop :=
  App.pc_base64 c <> "" /\ App.pc_mimeType c <> ""
  /\ trim (App.pc_prompt c) <> ""
  /\ forall r,
       App.pc_reference c = Some r ->
       GeminiService.ref_base64 r <> ""
       /\ GeminiService.ref_mimeType r <> "".

Definition selectionCallOk (c : App.SelectionCall) : Prop :=
  App.sc_base64 c <> "" /\ App.sc_mimeType c = "image/png"
  /\ trim (App.sc_prompt c) <> ""
  /\ positiveRegion (App.sc_selection c).

Definition waitingOk (w : Page.Pending) : Prop :=
  match w with
  | Page.Editing c => promptCallOk c
  | Page.Inpainting c => selectionCallOk c
  | _ => True
  end.

Definition appOk (s : App.State) : Prop :=
  pngEdited s /\ storedImagesOk s /\ modeOk s.

Definition pageOk (p : Page.t) : Prop :=
  appOk (Page.app p) /\ Forall waitingOk (Page.pending p).

(** A request as the service expects it: the model, image output only,
    and parts that are a non-empty image, at most one more image, and an
    instruction that is not blank. *)
Definition requestOk (r : GeminiService.GenerateContentParameters) : Prop :=
  GeminiService.model r = GeminiService.modelName
  /\ GeminiService.responseModalities r = [GeminiService.IMAGE]
  /\ exists data mimeType between prompt,
       GeminiService.contents_parts r
       = GeminiService.InlineData data mimeType
         :: between ++ [GeminiService.Text prompt]
       /\ data <> "" /\ mimeType <> "" /\ trim prompt <> ""
       /\ (List.length between <= 1)%nat
       /\ Forall
            (fun part =>
               exists d m, part = GeminiService.InlineData d m)
            between.

End Further.

Import Further.

Import Stated.

(* ================================================================== *)
(** * The helpers on small inputs *)

Section Checks.
Import Js JsNumber.

Example split_segments :
  split "," "a,b,c" = ["a"; "b"; "c"]
  /\ split "," "" = [""]
  /\ split "," "ab" = ["ab"]
  /\ split "," ",x," = [""; "x"; ""].
Proof. repeat split. Qed.

Example trim_both_ends :
  trim "  remove  it " = "remove  it" /\ trim "   " = "" /\ trim "" = "".
Proof. repeat split. Qed.

Example header_pattern :
  matchColonSemicolon "data:image/png;base64" = Some "image/png"
  /\ matchColonSemicolon "data:;base64" = Some ""
  /\ matchColonSemicolon "data:image/png" = None
  /\ matchColonSemicolon "a:b:c;d" = Some "b:c".
Proof. repeat split. Qed.

Example division_by_zero :
  div (Fin 0) (Fin 0) = NaN
  /\ div (Fin 3) (Fin 0) = PosInf
  /\ div (Fin (-3)) (Fin 0) = NegInf
  /\ max (Fin 0) (min (Fin 100) (mul PosInf (Fin 100))) = Fin 100
  /\ max (Fin 0) (min (Fin 100) (mul NegInf (Fin 100))) = Fin 0
  /\ max (Fin 0) (min (Fin 100) (mul NaN (Fin 100))) = NaN.
Proof. repeat split. Qed.

(** On a container of width zero a pointer at its left edge has no
    percentage: the region that a mouse down passes on has [NaN] for [x]
    and is not within bounds. The region invariant needs a container that
    has an extent. *)
Example flat_container_gives_NaN :
  let props := ImageCard.mkProps None false true None true true None in
  let flat := DOMRect.mk 10 10 0 100 in
  snd (ImageCard.handleMouseDown props ImageCard.initial (Some flat)
         (MouseEvent.mk 10 60))
  = Some (Selection.mk NaN (Fin (50 / 100 * 100)) (Fin 0) (Fin 0))
  /\ inBounds (Selection.mk NaN (Fin (50 / 100 * 100)) (Fin 0) (Fin 0))
     = false.
Proof. cbv zeta. split; reflexivity. Qed.

End Checks.

(* ================================================================== *)
(** * Strings: splitting and the header pattern *)

Section Strings.
Import Js.

Lemma truthy_false_iff (s : string) : truthy s = false <-> s = "".
Proof. destruct s; simpl; split; congruence. Qed.

Lemma truthy_true_iff (s : string) : truthy s = true <-> s <> "".
Proof. destruct s; simpl; split; congruence. Qed.

Lemma split_not_nil (sep : ascii) (s : string) : split sep s <> [].
Proof.
  destruct s as [|c rest]; simpl; [congruence|].
  destruct (Ascii.eqb c sep); [congruence|].
  destruct (split sep rest); congruence.
Qed.

(** Splitting at a separator that stands after a separator-free
    prefix. *)
Lemma split_prefix (sep : ascii) (pre rest : string) :
  (forall c, In c (list_ascii_of_string pre) -> c <> sep) ->
  split sep (String.append pre (String sep rest))
  = pre :: split sep rest.
Proof.
  induction pre as [|c pre IH]; intros Hfree; simpl.
  - now rewrite Ascii.eqb_refl.
  - destruct (Ascii.eqb_spec c sep) as [->|_].
    + exfalso. apply (Hfree sep); simpl; auto.
    + rewrite IH; [reflexivity|].
      intros d Hd. apply Hfree. simpl. auto.
Qed.

Lemma lazyUntilSemicolon_plain (tag rest : string) :
  plainTag tag ->
  lazyUntilSemicolon (String.append tag (String ";" rest)) = Some tag.
Proof.
  induction tag as [|c tag IH]; intros Hplain; simpl; [reflexivity|].
  destruct (Hplain c) as [Hsemi Hline]; [simpl; auto|].
  destruct (Ascii.eqb_spec c ";") as [->|_]; [congruence|].
  rewrite Hline, IH; [reflexivity|].
  intros d Hd. apply Hplain. simpl. auto.
Qed.

(** The header of a data URL, [data:<tag>;base64], gives its tag. *)
Lemma matchColonSemicolon_dataUrl (tag rest : string) :
  plainTag tag ->
  matchColonSemicolon
    (String.append "data:" (String.append tag (String ";" rest)))
  = Some tag.
Proof.
  intros Hplain. simpl. now rewrite lazyUntilSemicolon_plain.
Qed.

End Strings.

(* ================================================================== *)
(** * [fileToBase64] *)

Section FileToBase64.
Import Js FileUtils.

Lemma fileToBase64_unfold (file : File) (result : string) :
  fileToBase64 file (Loaded result)
  = if negb (truthy (headerOf result)) || negb (truthy (payloadOf result))
    then Rejected (Error invalidFileFormat)
    else
      let tag :=
        match matchColonSemicolon (headerOf result) with
        | Some group => group
        | None => type file
        end in
      if negb (truthy tag) then Rejected (Error noMimeType)
      else Resolved (mkEncoded (payloadOf result) tag).
Proof.
  unfold fileToBase64, headerOf, payloadOf.
  destruct (split "," result) as [|h [|b rest]] eqn:E; simpl.
  - now apply split_not_nil in E.
  - now rewrite orb_true_r.
  - reflexivity.
Qed.

(** C9, as the code has it. The format tag is the one the header of the
    read result carries (the text between its first [:] that a [;]
    follows and that [;]); the declared type of the file is used only
    when the header carries none. The promise is rejected when the
    header segment or the payload segment is missing or empty, and when
    the header carries no tag and the declared type is empty. *)
Theorem fileToBase64_outcomes (file : File) (result : string) :
  let header := headerOf result in
  let payload := payloadOf result in
  let settled := fileToBase64 file (Loaded result) in
  (header = "" \/ payload = "" ->
   settled = Rejected (Error invalidFileFormat))
  /\ (forall tag,
       header <> "" -> payload <> "" ->
       matchColonSemicolon header = Some tag -> tag <> "" ->
       settled = Resolved (mkEncoded payload tag))
  /\ (header <> "" -> payload <> "" ->
      matchColonSemicolon header = None -> type file <> "" ->
      settled = Resolved (mkEncoded payload (type file)))
  /\ (header <> "" -> payload <> "" ->
      matchColonSemicolon header = None -> type file = "" ->
      settled = Rejected (Error noMimeType)).
Proof.
  cbv zeta. rewrite fileToBase64_unfold.
  repeat split.
  - intros [H|H]; apply truthy_false_iff in H; rewrite H; simpl;
      [reflexivity | now rewrite orb_true_r].
  - intros tag Hh Hp Hm Ht.
    apply truthy_true_iff in Hh, Hp, Ht. rewrite Hh, Hp, Hm. simpl.
    now rewrite Ht.
  - intros Hh Hp Hm Ht.
    apply truthy_true_iff in Hh, Hp, Ht. rewrite Hh, Hp, Hm. simpl.
    now rewrite Ht.
  - intros Hh Hp Hm Ht.
    apply truthy_true_iff in Hh, Hp. rewrite Hh, Hp, Hm, Ht.
    reflexivity.
Qed.

(** The four cases of [fileToBase64_outcomes] on four reads. *)
Lemma fileToBase64_outcomes_witness :
  fileToBase64 (mkFile "image/png" "blob:a") (Loaded "no comma here")
  = Rejected (Error invalidFileFormat)
  /\ fileToBase64 (mkFile "image/png" "blob:a")
       (Loaded "data:image/jpeg;base64,AAAA")
     = Resolved (mkEncoded "AAAA" "image/jpeg")
  /\ fileToBase64 (mkFile "image/png" "blob:a") (Loaded "payload,AAAA")
     = Resolved (mkEncoded "AAAA" "image/png")
  /\ fileToBase64 (mkFile "" "blob:a") (Loaded "payload,AAAA")
     = Rejected (Error noMimeType).
Proof.
  split; [|split; [|split]].
  - apply (fileToBase64_outcomes (mkFile "image/png" "blob:a")
             "no comma here").
    right. reflexivity.
  - apply (fileToBase64_outcomes (mkFile "image/png" "blob:a")
             "data:image/jpeg;base64,AAAA");
      [discriminate | discriminate | reflexivity | discriminate].
  - apply (fileToBase64_outcomes (mkFile "image/png" "blob:a")
             "payload,AAAA");
      [discriminate | discriminate | reflexivity | discriminate].
  - apply (fileToBase64_outcomes (mkFile "" "blob:a") "payload,AAAA");
      [discriminate | discriminate | reflexivity | reflexivity].
Defined.

(** C9 as stated fails: a file whose declared type has a parameter is
    read into a data URL that repeats the declared type, and the tag that
    [fileToBase64] returns is the one cut from the header, not the
    declared one. *)
Lemma fileToBase64_header_before_declared_type :
  let file := mkFile "image/svg+xml;charset=utf-8" "blob:a" in
  let read := Loaded "data:image/svg+xml;charset=utf-8;base64,PHN2Zy8+" in
  fileToBase64 file read
  = Resolved (mkEncoded "PHN2Zy8+" "image/svg+xml")
  /\ fileToBase64_declaredFirst file read
     = Resolved (mkEncoded "PHN2Zy8+" "image/svg+xml;charset=utf-8")
  /\ fileToBase64 file read <> fileToBase64_declaredFirst file read.
Proof.
  cbv zeta. repeat split. discriminate.
Qed.

End FileToBase64.

(* ================================================================== *)
(** * The edit pipeline *)

Section Pipeline.
Import Js GeminiService.

Variable ai : Service.

Lemma firstInlineData_app (before after : list ResponsePart) :
  Forall (fun part => inlineData part = None) before ->
  firstInlineData (before ++ after) = firstInlineData after.
Proof.
  induction 1 as [|part before Hpart _ IH]; simpl; [reflexivity|].
  now rewrite Hpart.
Qed.

(** The loop returns the data of the first part that carries inline data,
    whatever format that part declares and whatever follows it. *)
Lemma firstInlineData_first (before after : list ResponsePart)
  (blob : Blob) (text : option string) :
  Forall (fun part => inlineData part = None) before ->
  firstInlineData (before ++ mkResponsePart (Some blob) text :: after)
  = Some (blob_data blob).
Proof.
  intros Hbefore. now rewrite firstInlineData_app.
Qed.

(** The loop runs to its end exactly when no part carries inline data. *)
Lemma firstInlineData_none (ps : list ResponsePart) :
  firstInlineData ps = None
  <-> Forall (fun part => inlineData part = None) ps.
Proof.
  induction ps as [|part ps IH]; simpl.
  - split; [constructor | reflexivity].
  - destruct (inlineData part) eqn:E.
    + split; [discriminate|]. intros H. inversion H. congruence.
    + rewrite IH. split; [now constructor|]. intros H. now inversion H.
Qed.

Lemma editImageWithPrompt_runs (base64ImageData mimeType prompt : string)
  (referenceImage : option ReferenceImage) :
  editImageWithPrompt ai base64ImageData mimeType prompt referenceImage
  = ([promptRequest base64ImageData mimeType prompt referenceImage],
     extracted editFailed
       (ai (promptRequest base64ImageData mimeType prompt referenceImage))).
Proof.
  unfold editImageWithPrompt, generateContent, promptRequest, bind,
    tryCatch, extracted.
  destruct (ai _) as [response|reason]; simpl; [|reflexivity].
  destruct (firstInlineData (responseParts response)); reflexivity.
Qed.

(** A response that carries an image resolves the promise with the data
    of its first image part. *)
Lemma editImageWithPrompt_first_image
  (base64ImageData mimeType prompt : string)
  (referenceImage : option ReferenceImage)
  (response : GenerateContentResponse)
  (before after : list ResponsePart) (blob : Blob) (text : option string) :
  ai (promptRequest base64ImageData mimeType prompt referenceImage)
  = Resolved response ->
  responseParts response
  = before ++ mkResponsePart (Some blob) text :: after ->
  noInlineData before ->
  outcome
    (editImageWithPrompt ai base64ImageData mimeType prompt referenceImage)
  = Resolved (blob_data blob).
Proof.
  intros Hanswer Hparts Hbefore. rewrite editImageWithPrompt_runs.
  unfold outcome, extracted. cbn [snd].
  now rewrite Hanswer, Hparts, (firstInlineData_first _ _ _ _ Hbefore).
Qed.

Variable browser : Browser.

Lemma editImageWithSelection_runs (base64ImageData mimeType prompt : string)
  (selection : Selection.t) :
  editImageWithSelection browser ai base64ImageData mimeType prompt
    selection
  = match decodeImage browser (baseImageUrl base64ImageData mimeType) with
    | Some size =>
        if getContext2d browser then
          let request :=
            selectionRequest base64ImageData mimeType prompt
              (maskFor browser size selection) in
          ([request], extracted editSelectionFailed (ai request))
        else ([], Rejected (Error editSelectionFailed))
    | None => ([], Rejected (Error editSelectionFailed))
    end.
Proof.
  unfold editImageWithSelection, imageLoaded, baseImageUrl, maskFor,
    selectionRequest, generateContent, bind, tryCatch, extracted.
  destruct (decodeImage browser _) as [size|]; simpl; [|reflexivity].
  destruct (getContext2d browser); simpl; [|reflexivity].
  destruct (ai _) as [response|reason]; simpl; [|reflexivity].
  destruct (firstInlineData (responseParts response)); reflexivity.
Qed.


End Pipeline.

(** C1 at a response that holds a text part and no image: the error that
    reaches the caller is the one of the [catch] block, the same as for a
    call that fails; the error thrown for the missing image, with its own
    message, is caught on its way out. *)
Theorem editImageWithPrompt_no_image_is_edit_failure :
  let textOnly :=
    GeminiService.mkResponse
      (Some
         [GeminiService.mkCandidate
            (Some
               (GeminiService.mkContent
                  (Some
                     [GeminiService.mkResponsePart None
                        (Some "I cannot edit this image.")])))]) in
  let answers : GeminiService.Service := fun _ => Js.Resolved textOnly in
  let fails : GeminiService.Service :=
    fun _ => Js.Rejected (Js.Error "fetch failed") in
  GeminiService.outcome
    (GeminiService.editImageWithPrompt answers "AAAA" "image/png"
       "remove the background" None)
  = Js.Rejected (Js.Error GeminiService.editFailed)
  /\ GeminiService.outcome
       (GeminiService.editImageWithPrompt fails "AAAA" "image/png"
          "remove the background" None)
     = Js.Rejected (Js.Error GeminiService.editFailed)
  /\ GeminiService.editFailed <> GeminiService.noImageGenerated.
Proof.
  cbv zeta. split; [reflexivity|]. split; [reflexivity|].
  unfold GeminiService.editFailed, GeminiService.noImageGenerated.
  discriminate.
Qed.

(** The same for every response without inline data and whatever the
    service is: never the error of the missing image. *)
Lemma editImageWithPrompt_never_no_image_error
  (ai : GeminiService.Service)
  (base64ImageData mimeType prompt : string)
  (referenceImage : option GeminiService.ReferenceImage) :
  GeminiService.outcome
    (GeminiService.editImageWithPrompt ai base64ImageData mimeType prompt
       referenceImage)
  <> Js.Rejected (Js.Error GeminiService.noImageGenerated).
Proof.
  rewrite editImageWithPrompt_runs. unfold GeminiService.outcome. simpl.
  unfold extracted.
  destruct (ai _) as [response|reason].
  - destruct (GeminiService.firstInlineData _); discriminate.
  - discriminate.
Qed.

(* ================================================================== *)
(** * Numbers *)

Section Numbers.
Import JsNumber.

Lemma Qltb_lt (a b : Q) : Qltb a b = true <-> a < b.
Proof.
  unfold Qltb. rewrite negb_true_iff. split.
  - intros H. apply Qnot_le_lt. intros Hle.
    apply Qle_bool_iff in Hle. congruence.
  - intros H. destruct (Qle_bool b a) eqn:E; [|reflexivity].
    apply Qle_bool_iff in E. lra.
Qed.

Lemma Qltb_ge (a b : Q) : Qltb a b = false <-> b <= a.
Proof.
  unfold Qltb. rewrite negb_false_iff. apply Qle_bool_iff.
Qed.

Lemma sign_positive (q : Q) : 0 < q -> sign q = Gt.
Proof. intros H. unfold sign. now apply Qgt_alt. Qed.

Lemma div_finite (p q : Q) : 0 < q -> div (Fin p) (Fin q) = Fin (p / q).
Proof. intros H. unfold div. now rewrite (sign_positive q H). Qed.

(** [Math.max(0, Math.min(100, v))] of a finite [v] is [v] clamped. *)
Lemma clamp_finite (v : Q) :
  exists x : Q,
    max (Fin 0) (min (Fin 100) (Fin v)) = Fin x
    /\ x == clampPercent v /\ 0 <= x <= 100.
Proof.
  unfold min, clampPercent. simpl.
  destruct (Qltb v 100) eqn:Hhigh; simpl.
  - destruct (Qltb 0 v) eqn:Hlow.
    + exists v. apply Qltb_lt in Hhigh, Hlow.
      assert (Qltb v 0 = false) as -> by (apply Qltb_ge; lra).
      assert (Qltb 100 v = false) as -> by (apply Qltb_ge; lra).
      repeat split; try reflexivity; lra.
    + exists 0. apply Qltb_lt in Hhigh. apply Qltb_ge in Hlow.
      destruct (Qltb v 0) eqn:Hneg.
      * repeat split; try reflexivity; lra.
      * apply Qltb_ge in Hneg.
        assert (Qltb 100 v = false) as -> by (apply Qltb_ge; lra).
        repeat split; try reflexivity; lra.
  - exists 100. apply Qltb_ge in Hhigh.
    assert (Qltb v 0 = false) as -> by (apply Qltb_ge; lra).
    destruct (Qltb 100 v) eqn:Habove.
    + repeat split; try reflexivity; lra.
    + apply Qltb_ge in Habove. repeat split; try reflexivity; lra.
Qed.

(** [Math.min] of two finite numbers is the lesser one. *)
Lemma min_finite (a c : Q) :
  exists m : Q, min (Fin a) (Fin c) = Fin m /\ m == Qmin a c.
Proof.
  unfold min. simpl. destruct (Qltb c a) eqn:E.
  - exists c. apply Qltb_lt in E. split; [reflexivity|].
    symmetry. apply Q.min_r. lra.
  - exists a. apply Qltb_ge in E. split; [reflexivity|].
    symmetry. now apply Q.min_l.
Qed.

Lemma abs_sub_finite (a c : Q) :
  abs (sub (Fin a) (Fin c)) = Fin (Qabs (a - c)).
Proof. reflexivity. Qed.


End Numbers.

(* ================================================================== *)
(** * The region selector *)

Section Selector.
Import JsNumber ImageCard.

(** The pointer position in percent of the container, each axis clamped
    to the interval from 0 to 100. *)
Lemma getRelativeCoords_clamped (rect : DOMRect.t) (e : MouseEvent.t) :
  0 < DOMRect.width rect -> 0 < DOMRect.height rect ->
  exists x y : Q,
    getRelativeCoords (Some rect) e = Some (mkPoint (Fin x) (Fin y))
    /\ x == clampPercent
              (percentOf (MouseEvent.clientX e) (DOMRect.left rect)
                 (DOMRect.width rect))
    /\ y == clampPercent
              (percentOf (MouseEvent.clientY e) (DOMRect.top rect)
                 (DOMRect.height rect))
    /\ 0 <= x <= 100 /\ 0 <= y <= 100.
Proof.
  intros Hw Hh. unfold getRelativeCoords. cbn [sub].
  rewrite !div_finite by assumption. cbn [mul].
  destruct (clamp_finite
              ((MouseEvent.clientX e - DOMRect.left rect)
               / DOMRect.width rect * 100)) as (x & -> & Hx & Hxr).
  destruct (clamp_finite
              ((MouseEvent.clientY e - DOMRect.top rect)
               / DOMRect.height rect * 100)) as (y & -> & Hy & Hyr).
  exists x, y. unfold percentOf. auto.
Qed.


(** C5. While a drag is on, [handleMouseMove] turns the pointer position
    into percentages of the container clamped to the interval from 0 to
    100 on each axis, and passes on the region whose corner is the minimum
    of the anchor and that point and whose extent is the absolute value of
    their difference, on each axis. *)
Theorem handleMouseMove_min_abs (props : Props) (st : State)
  (rect : DOMRect.t) (e : MouseEvent.t) :
  isDrawing st = true -> onSelectionChange props = true ->
  0 < DOMRect.width rect -> 0 < DOMRect.height rect ->
  exists cx cy : Q,
    getRelativeCoords (Some rect) e = Some (mkPoint (Fin cx) (Fin cy))
    /\ cx == clampPercent
               (percentOf (MouseEvent.clientX e) (DOMRect.left rect)
                  (DOMRect.width rect))
    /\ cy == clampPercent
               (percentOf (MouseEvent.clientY e) (DOMRect.top rect)
                  (DOMRect.height rect))
    /\ 0 <= cx <= 100 /\ 0 <= cy <= 100
    /\ handleMouseMove props st (Some rect) e
       = (st,
          Some
            (Selection.mk
               (min (px (startPos st)) (Fin cx))
               (min (py (startPos st)) (Fin cy))
               (abs (sub (px (startPos st)) (Fin cx)))
               (abs (sub (py (startPos st)) (Fin cy)))))
    /\ forall ax ay : Q,
         startPos st = mkPoint (Fin ax) (Fin ay) ->
         exists x y : Q,
           snd (handleMouseMove props st (Some rect) e)
           = Some
               (Selection.mk (Fin x) (Fin y) (Fin (Qabs (ax - cx)))
                  (Fin (Qabs (ay - cy))))
           /\ x == Qmin ax cx /\ y == Qmin ay cy.
Proof.
  intros Hdrawing Hhandler Hw Hh.
  destruct (getRelativeCoords_clamped rect e Hw Hh)
    as (cx & cy & Hcoords & Hcx & Hcy & [Hx0 Hx1] & [Hy0 Hy1]).
  exists cx, cy.
  assert (handleMouseMove props st (Some rect) e
          = (st,
             Some
               (Selection.mk
                  (min (px (startPos st)) (Fin cx))
                  (min (py (startPos st)) (Fin cy))
                  (abs (sub (px (startPos st)) (Fin cx)))
                  (abs (sub (py (startPos st)) (Fin cy)))))) as Hmove.
  { unfold handleMouseMove. rewrite Hdrawing, Hhandler, Hcoords.
    reflexivity. }
  repeat split; try assumption.
  intros ax ay Hanchor. rewrite Hmove, Hanchor. cbn [snd px py].
  destruct (min_finite ax cx) as (x & -> & Hx).
  destruct (min_finite ay cy) as (y & -> & Hy).
  exists x, y. rewrite !abs_sub_finite. auto.
Qed.

(** [handleMouseMove_min_abs] on a drag from the centre of a 200 by 100
    container towards its upper left corner. *)
Lemma handleMouseMove_min_abs_witness :
  exists cx cy : Q,
    getRelativeCoords (Some (DOMRect.mk 10 20 200 100))
      (MouseEvent.mk 60 45)
    = Some (mkPoint (Fin cx) (Fin cy))
    /\ cx == clampPercent (percentOf 60 10 200)
    /\ cy == clampPercent (percentOf 45 20 100)
    /\ 0 <= cx <= 100 /\ 0 <= cy <= 100
    /\ handleMouseMove (mkProps None false true None true true None)
         (mkState true (mkPoint (Fin 50) (Fin 50)))
         (Some (DOMRect.mk 10 20 200 100)) (MouseEvent.mk 60 45)
       = (mkState true (mkPoint (Fin 50) (Fin 50)),
          Some
            (Selection.mk (min (Fin 50) (Fin cx)) (min (Fin 50) (Fin cy))
               (abs (sub (Fin 50) (Fin cx)))
               (abs (sub (Fin 50) (Fin cy)))))
    /\ forall ax ay : Q,
         mkPoint (Fin 50) (Fin 50) = mkPoint (Fin ax) (Fin ay) ->
         exists x y : Q,
           snd
             (handleMouseMove (mkProps None false true None true true None)
                (mkState true (mkPoint (Fin 50) (Fin 50)))
                (Some (DOMRect.mk 10 20 200 100)) (MouseEvent.mk 60 45))
           = Some
               (Selection.mk (Fin x) (Fin y) (Fin (Qabs (ax - cx)))
                  (Fin (Qabs (ay - cy))))
           /\ x == Qmin ax cx /\ y == Qmin ay cy.
Proof.
  apply (handleMouseMove_min_abs
           (mkProps None false true None true true None)
           (mkState true (mkPoint (Fin 50) (Fin 50)))
           (DOMRect.mk 10 20 200 100) (MouseEvent.mk 60 45));
    reflexivity.
Defined.

(** ** The regions stay in the surface *)




End Selector.

(* ================================================================== *)
(** * The stored region along the life of the page *)

Section RegionInvariant.
Import Js JsNumber.



Lemma handleImageUpload_resume_keeps f read s :
  keepsOrClears s (App.handleImageUpload_resume f read s).
Proof.
  unfold keepsOrClears, App.handleImageUpload_resume.
  destruct (FileUtils.fileToBase64 f read); cbn; auto.
Qed.


Lemma handleReferenceImageUpload_resume_keeps f read s :
  keepsOrClears s (App.handleReferenceImageUpload_resume f read s).
Proof.
  unfold keepsOrClears, App.handleReferenceImageUpload_resume.
  destruct (FileUtils.fileToBase64 f read); cbn; auto.
Qed.


Lemma handleEditRequest_resume_keeps result s :
  keepsOrClears s (App.handleEditRequest_resume result s).
Proof.
  unfold keepsOrClears, App.handleEditRequest_resume.
  destruct result; cbn; auto.
Qed.


Lemma handleInpaintRequest_resume_keeps result s :
  keepsOrClears s (App.handleInpaintRequest_resume result s).
Proof.
  unfold keepsOrClears, App.handleInpaintRequest_resume.
  destruct result; cbn; auto.
Qed.

Lemma handleSelectAreaToggle_keeps s :
  keepsOrClears s (App.handleSelectAreaToggle s).
Proof.
  unfold keepsOrClears, App.handleSelectAreaToggle.
  destruct (App.isSelecting s); cbn; auto.
Qed.



Create HintDb handlers.

#[local] Hint Resolve handleImageUpload_resume_keeps
  handleReferenceImageUpload_resume_keeps handleEditRequest_resume_keeps
  handleInpaintRequest_resume_keeps handleSelectAreaToggle_keeps
  : handlers.








End RegionInvariant.

(* ================================================================== *)
(** * The mask *)

Section Mask.
Import JsNumber GeminiService.

Lemma ofN_le (a b : N) : (a <= b)%N -> Canvas.ofN a <= Canvas.ofN b.
Proof. intros H. unfold Canvas.ofN. rewrite <- Zle_Qle. lia. Qed.

Lemma ofN_succ_le (a b : N) : (a < b)%N -> Canvas.ofN a + 1 <= Canvas.ofN b.
Proof.
  intros H. unfold Canvas.ofN.
  change 1 with (inject_Z 1). rewrite <- inject_Z_plus, <- Zle_Qle. lia.
Qed.

Lemma ofN_nonneg (a : N) : 0 <= Canvas.ofN a.
Proof. apply (ofN_le 0 a). lia. Qed.

(** The coverage by a rectangle whose extents are not negative, without
    the normalization of its corners. *)
Lemma coverage_nonneg (f : Canvas.Fill) (col row : N) :
  0 <= Canvas.fw f -> 0 <= Canvas.fh f ->
  Canvas.coverage f col row
  = let c := Canvas.ofN col in
    let r := Canvas.ofN row in
    if Qle_bool (Canvas.fx f) c
       && Qle_bool (c + 1) (Canvas.fx f + Canvas.fw f)
       && Qle_bool (Canvas.fy f) r
       && Qle_bool (r + 1) (Canvas.fy f + Canvas.fh f) then Canvas.Full
    else if Qle_bool (Canvas.fx f + Canvas.fw f) c
            || Qle_bool (c + 1) (Canvas.fx f)
            || Qle_bool (Canvas.fy f + Canvas.fh f) r
            || Qle_bool (r + 1) (Canvas.fy f) then Canvas.Outside
    else Canvas.Partial.
Proof.
  intros Hw Hh. unfold Canvas.coverage. cbv zeta.
  assert (Qmin (Canvas.fx f) (Canvas.fx f + Canvas.fw f) == Canvas.fx f)
    as Hx0 by (apply Q.min_l; lra).
  assert (Qmax (Canvas.fx f) (Canvas.fx f + Canvas.fw f)
          == Canvas.fx f + Canvas.fw f) as Hx1 by (apply Q.max_r; lra).
  assert (Qmin (Canvas.fy f) (Canvas.fy f + Canvas.fh f) == Canvas.fy f)
    as Hy0 by (apply Q.min_l; lra).
  assert (Qmax (Canvas.fy f) (Canvas.fy f + Canvas.fh f)
          == Canvas.fy f + Canvas.fh f) as Hy1 by (apply Q.max_r; lra).
  set (c := Canvas.ofN col). set (r := Canvas.ofN row).
  rewrite (Qleb_comp _ _ Hx0 c c (Qeq_refl c)).
  rewrite (Qleb_comp _ _ (Qeq_refl (c + 1)) _ _ Hx1).
  rewrite (Qleb_comp _ _ Hy0 r r (Qeq_refl r)).
  rewrite (Qleb_comp _ _ (Qeq_refl (r + 1)) _ _ Hy1).
  rewrite (Qleb_comp _ _ Hx1 c c (Qeq_refl c)).
  rewrite (Qleb_comp _ _ (Qeq_refl (c + 1)) _ _ Hx0).
  rewrite (Qleb_comp _ _ Hy1 r r (Qeq_refl r)).
  rewrite (Qleb_comp _ _ (Qeq_refl (r + 1)) _ _ Hy0).
  reflexivity.
Qed.

Lemma coverage_full (f : Canvas.Fill) (col row : N) :
  0 <= Canvas.fw f -> 0 <= Canvas.fh f ->
  Canvas.fx f <= Canvas.ofN col ->
  Canvas.ofN col + 1 <= Canvas.fx f + Canvas.fw f ->
  Canvas.fy f <= Canvas.ofN row ->
  Canvas.ofN row + 1 <= Canvas.fy f + Canvas.fh f ->
  Canvas.coverage f col row = Canvas.Full.
Proof.
  intros Hw Hh H1 H2 H3 H4. rewrite coverage_nonneg by assumption.
  cbv zeta. apply Qle_bool_iff in H1, H2, H3, H4.
  now rewrite H1, H2, H3, H4.
Qed.

Lemma Qle_bool_false (a b : Q) : b < a -> Qle_bool a b = false.
Proof.
  intros H. destruct (Qle_bool a b) eqn:E; [|reflexivity].
  apply Qle_bool_iff in E. lra.
Qed.

Lemma coverage_outside (f : Canvas.Fill) (col row : N) :
  0 <= Canvas.fw f -> 0 <= Canvas.fh f ->
  Canvas.ofN col + 1 <= Canvas.fx f
  \/ Canvas.fx f + Canvas.fw f <= Canvas.ofN col
  \/ Canvas.ofN row + 1 <= Canvas.fy f
  \/ Canvas.fy f + Canvas.fh f <= Canvas.ofN row ->
  Canvas.coverage f col row = Canvas.Outside.
Proof.
  intros Hw Hh Hout. rewrite coverage_nonneg by assumption. cbv zeta.
  destruct Hout as [H|[H|[H|H]]].
  - rewrite (Qle_bool_false (Canvas.fx f) (Canvas.ofN col)) by lra.
    apply Qle_bool_iff in H. rewrite H. cbn.
    now rewrite !orb_true_r.
  - rewrite (Qle_bool_false (Canvas.ofN col + 1)
               (Canvas.fx f + Canvas.fw f)) by lra.
    apply Qle_bool_iff in H. rewrite H. cbn.
    now rewrite !andb_false_r.
  - rewrite (Qle_bool_false (Canvas.fy f) (Canvas.ofN row)) by lra.
    apply Qle_bool_iff in H. rewrite H. cbn.
    now rewrite !andb_false_r, !orb_true_r.
  - rewrite (Qle_bool_false (Canvas.ofN row + 1)
               (Canvas.fy f + Canvas.fh f)) by lra.
    apply Qle_bool_iff in H. rewrite H. cbn.
    now rewrite !andb_false_r, !orb_true_r.
Qed.

Lemma fillRect_size (c : Canvas.t) (x y w h : number) :
  Canvas.width (Canvas.fillRect c x y w h) = Canvas.width c
  /\ Canvas.height (Canvas.fillRect c x y w h) = Canvas.height c.
Proof.
  unfold Canvas.fillRect.
  destruct x, y, w, h; auto.
  destruct (Qeq_bool _ 0 || Qeq_bool _ 0); auto.
Qed.

Lemma drawMask_fills (x y w h : Q) (W H : N) :
  drawMask (Canvas.create W H)
    (Selection.mk (Fin x) (Fin y) (Fin w) (Fin h))
  = let background :=
      Canvas.fillRect (Canvas.setFillStyle (Canvas.create W H) "black")
        (Fin 0) (Fin 0) (ofN W) (ofN H) in
    let f := scaledFill x y w h W H in
    Canvas.fillRect (Canvas.setFillStyle background "white")
      (Fin (Canvas.fx f)) (Fin (Canvas.fy f)) (Fin (Canvas.fw f))
      (Fin (Canvas.fh f)).
Proof.
  unfold drawMask. cbv zeta. cbn [Selection.x Selection.y Selection.width
                                  Selection.height].
  destruct (fillRect_size (Canvas.setFillStyle (Canvas.create W H) "black")
              (Fin 0) (Fin 0) (ofN (Canvas.width
                 (Canvas.setFillStyle (Canvas.create W H) "black")))
              (ofN (Canvas.height
                 (Canvas.setFillStyle (Canvas.create W H) "black"))))
    as [-> ->].
  reflexivity.
Qed.

Lemma ofN_positive (a b : N) : (a < b)%N -> Qeq_bool (Canvas.ofN b) 0 = false.
Proof.
  intros H. pose proof (ofN_succ_le a b H). pose proof (ofN_nonneg a).
  destruct (Qeq_bool (Canvas.ofN b) 0) eqn:E; [|reflexivity].
  apply Qeq_bool_iff in E. lra.
Qed.

(** The pixels of the mask: black, unless the white rectangle is painted
    and reaches the pixel. *)
Lemma mask_pixel (x y w h : Q) (W H col row : N) :
  (col < W)%N -> (row < H)%N ->
  Canvas.pixel
    (drawMask (Canvas.create W H)
       (Selection.mk (Fin x) (Fin y) (Fin w) (Fin h))) col row
  = Some
      (let f := scaledFill x y w h W H in
       if Qeq_bool (Canvas.fw f) 0 || Qeq_bool (Canvas.fh f) 0 then
         Canvas.Solid "black"
       else Canvas.paint col row (Canvas.Solid "black") f).
Proof.
  intros Hcol Hrow. rewrite drawMask_fills. cbv zeta.
  unfold Canvas.fillRect at 2. unfold ofN.
  change (inject_Z (Z.of_N W)) with (Canvas.ofN W).
  change (inject_Z (Z.of_N H)) with (Canvas.ofN H).
  rewrite (ofN_positive col W Hcol), (ofN_positive row H Hrow).
  cbn [orb Canvas.setFillStyle Canvas.create Canvas.width Canvas.height
         Canvas.fillStyle Canvas.fills app].
  assert (Canvas.coverage (backgroundFill W H) col row = Canvas.Full)
    as Hbackground.
  { apply coverage_full; cbn; try apply ofN_nonneg.
    - pose proof (ofN_succ_le col W Hcol). lra.
    - pose proof (ofN_succ_le row H Hrow). lra. }
  assert (Canvas.paint col row Canvas.Transparent (backgroundFill W H)
          = Canvas.Solid "black") as Hpaint.
  { unfold Canvas.paint. now rewrite Hbackground. }
  apply N.ltb_lt in Hcol, Hrow.
  unfold Canvas.fillRect.
  destruct (Qeq_bool (Canvas.fw (scaledFill x y w h W H)) 0
            || Qeq_bool (Canvas.fh (scaledFill x y w h W H)) 0);
    unfold Canvas.pixel;
    cbn [Canvas.setFillStyle Canvas.width Canvas.height Canvas.fills
           Canvas.fillStyle app fold_left];
    rewrite Hcol, Hrow; cbn [andb];
    fold (backgroundFill W H); rewrite Hpaint; reflexivity.
Qed.

Lemma scaledFill_nonneg (x y w h : Q) (W H : N) :
  0 <= w -> 0 <= h ->
  0 <= Canvas.fw (scaledFill x y w h W H)
  /\ 0 <= Canvas.fh (scaledFill x y w h W H).
Proof.
  intros Hw Hh. unfold scaledFill. cbn [Canvas.fw Canvas.fh].
  unfold Qdiv.
  split;
    (apply Qmult_le_0_compat;
     [apply Qmult_le_0_compat; [assumption | discriminate]
     | apply ofN_nonneg]).
Qed.

Lemma mask_pixel_within (x y w h : Q) (W H col row : N) :
  0 <= w -> 0 <= h -> (col < W)%N -> (row < H)%N ->
  pixelWithin (scaledFill x y w h W H) col row ->
  Canvas.pixel
    (drawMask (Canvas.create W H)
       (Selection.mk (Fin x) (Fin y) (Fin w) (Fin h))) col row
  = Some (Canvas.Solid "white").
Proof.
  intros Hw Hh Hcol Hrow (H1 & H2 & H3 & H4).
  rewrite mask_pixel by assumption. cbv zeta.
  destruct (scaledFill_nonneg x y w h W H Hw Hh) as [Hfw Hfh].
  set (f := scaledFill x y w h W H) in *.
  assert (Qeq_bool (Canvas.fw f) 0 = false) as ->.
  { destruct (Qeq_bool (Canvas.fw f) 0) eqn:E; [|reflexivity].
    apply Qeq_bool_iff in E. lra. }
  assert (Qeq_bool (Canvas.fh f) 0 = false) as ->.
  { destruct (Qeq_bool (Canvas.fh f) 0) eqn:E; [|reflexivity].
    apply Qeq_bool_iff in E. lra. }
  cbn [orb]. unfold Canvas.paint.
  now rewrite coverage_full.
Qed.

Lemma mask_pixel_apart (x y w h : Q) (W H col row : N) :
  0 <= w -> 0 <= h -> (col < W)%N -> (row < H)%N ->
  pixelApart (scaledFill x y w h W H) col row ->
  Canvas.pixel
    (drawMask (Canvas.create W H)
       (Selection.mk (Fin x) (Fin y) (Fin w) (Fin h))) col row
  = Some (Canvas.Solid "black").
Proof.
  intros Hw Hh Hcol Hrow Hapart.
  rewrite mask_pixel by assumption. cbv zeta.
  destruct (scaledFill_nonneg x y w h W H Hw Hh) as [Hfw Hfh].
  destruct (Qeq_bool _ 0 || Qeq_bool _ 0); [reflexivity|].
  unfold Canvas.paint. now rewrite coverage_outside.
Qed.

(** Closes a bound on a pixel of the 100 by 100 raster against the scaled
    corner (25) and extent (50) of the example. *)
Ltac quarter_bounds Hcorner Hextent :=
  change (Canvas.ofN 25) with 25 in *;
  change (Canvas.ofN 75) with 75 in *;
  unfold pixelWithin, pixelApart, scaledFill;
  cbn [Canvas.fx Canvas.fy Canvas.fw Canvas.fh];
  rewrite Hcorner, Hextent; lra.

(** C6. The mask of a region is drawn by two fills on a canvas of the size
    of the base image: black over the whole canvas, then white over the
    rectangle whose corner and extents are those of the region divided by
    100 and multiplied by the width or the height of the canvas. Every
    pixel within that rectangle is white and every pixel apart from it is
    black. For the region (25, 25, 50, 50) on 100 by 100 pixels, the white
    pixels are those of the rows and columns from 25 up to 75, 75 left
    out, and all others are black. *)
Theorem mask_rasterization :
  (forall (x y w h : Q) (W H : N),
      let region := Selection.mk (Fin x) (Fin y) (Fin w) (Fin h) in
      let mask := drawMask (Canvas.create W H) region in
      let f := scaledFill x y w h W H in
      mask
      = Canvas.fillRect
          (Canvas.setFillStyle
             (Canvas.fillRect
                (Canvas.setFillStyle (Canvas.create W H) "black")
                (Fin 0) (Fin 0) (ofN W) (ofN H))
             "white")
          (Fin (Canvas.fx f)) (Fin (Canvas.fy f)) (Fin (Canvas.fw f))
          (Fin (Canvas.fh f))
      /\ Canvas.width mask = W /\ Canvas.height mask = H
      /\ (0 <= w -> 0 <= h ->
          forall col row, (col < W)%N -> (row < H)%N ->
            (pixelWithin f col row ->
             Canvas.pixel mask col row = Some (Canvas.Solid "white"))
            /\ (pixelApart f col row ->
                Canvas.pixel mask col row = Some (Canvas.Solid "black"))))
  /\ (forall col row, (col < 100)%N -> (row < 100)%N ->
         Canvas.pixel (drawMask (Canvas.create 100 100) quarterRegion)
           col row
         = Some
             (Canvas.Solid
                (if inQuarter col row then "white" else "black"))).
Proof.
  split.
  - intros x y w h W H. cbv zeta. split; [apply drawMask_fills|].
    split; [|split].
    + rewrite drawMask_fills. cbv zeta.
      rewrite (proj1 (fillRect_size _ _ _ _ _)).
      cbn [Canvas.setFillStyle Canvas.width].
      now rewrite (proj1 (fillRect_size _ _ _ _ _)).
    + rewrite drawMask_fills. cbv zeta.
      rewrite (proj2 (fillRect_size _ _ _ _ _)).
      cbn [Canvas.setFillStyle Canvas.height].
      now rewrite (proj2 (fillRect_size _ _ _ _ _)).
    + intros Hw Hh col row Hcol Hrow. split; intros Hpixel.
      * now apply mask_pixel_within.
      * now apply mask_pixel_apart.
  - intros col row Hcol Hrow. unfold quarterRegion, inQuarter.
    assert (25 / 100 * Canvas.ofN 100 == 25) as Hcorner by reflexivity.
    assert (50 / 100 * Canvas.ofN 100 == 50) as Hextent by reflexivity.
    destruct (N.leb_spec 25 col) as [Hc1|Hc1];
      [destruct (N.ltb_spec col 75) as [Hc2|Hc2];
       [destruct (N.leb_spec 25 row) as [Hr1|Hr1];
        [destruct (N.ltb_spec row 75) as [Hr2|Hr2]|]|]|]; cbn [andb].
    + apply mask_pixel_within; try assumption; try lra.
      pose proof (ofN_le 25 col Hc1). pose proof (ofN_succ_le col 75 Hc2).
      pose proof (ofN_le 25 row Hr1). pose proof (ofN_succ_le row 75 Hr2).
      quarter_bounds Hcorner Hextent.
    + apply mask_pixel_apart; try assumption; try lra.
      pose proof (ofN_le 75 row Hr2). quarter_bounds Hcorner Hextent.
    + apply mask_pixel_apart; try assumption; try lra.
      pose proof (ofN_succ_le row 25 Hr1). quarter_bounds Hcorner Hextent.
    + apply mask_pixel_apart; try assumption; try lra.
      pose proof (ofN_le 75 col Hc2). quarter_bounds Hcorner Hextent.
    + apply mask_pixel_apart; try assumption; try lra.
      pose proof (ofN_succ_le col 25 Hc1). quarter_bounds Hcorner Hextent.
Qed.

End Mask.

(* ================================================================== *)
(** * The controller *)

Section Controller.
Import Js JsNumber.

(** ** Uploading a primary image *)

(** C8. For a file whose type starts with [image/] and whose read
    succeeds, [handleImageUpload] empties the edited image, leaves
    selection mode and clears the stored region, whatever they were, and
    stores the new original image. The three are cleared before the read
    is awaited, and the part that runs after the read does not touch
    them. *)
Theorem upload_clears_edit_and_selection (s : App.State)
  (f : FileUtils.File) (read : FileUtils.ReadOutcome)
  (encoded : FileUtils.Encoded) :
  startsWith "image/" (FileUtils.type f) = true ->
  FileUtils.fileToBase64 f read = Resolved encoded ->
  let started := App.handleImageUpload_begin (Some f) s in
  let s' := App.handleImageUpload (Some f) read s in
  snd started = Some f
  /\ App.editedImage (fst started) = None
  /\ App.isSelecting (fst started) = false
  /\ App.selection (fst started) = None
  /\ (forall s1,
         let s2 := App.handleImageUpload_resume f read s1 in
         App.editedImage s2 = App.editedImage s1
         /\ App.isSelecting s2 = App.isSelecting s1
         /\ App.selection s2 = App.selection s1)
  /\ App.editedImage s' = None
  /\ App.isSelecting s' = false
  /\ App.selection s' = None
  /\ App.originalImage s'
     = Some
         (App.mkImage (FileUtils.objectURL f) (FileUtils.base64 encoded)
            (FileUtils.mimeType encoded)).
Proof.
  intros Htype Hread. cbv zeta.
  unfold App.handleImageUpload, App.handleImageUpload_begin,
    App.handleImageUpload_resume.
  rewrite Htype. cbn. rewrite Hread. cbn. repeat first [split | intro].
Qed.

(** [upload_clears_edit_and_selection] on a page that shows an edited
    image with a region selected. *)
Lemma upload_clears_edit_and_selection_witness :
  let s' :=
    App.handleImageUpload (Some Examples.photo)
      (FileUtils.Loaded "data:image/png;base64,QUJD") Examples.selecting in
  App.editedImage Examples.selecting = Some "data:image/png;base64,REVG"
  /\ App.editedImage s' = None
  /\ App.isSelecting s' = false
  /\ App.selection s' = None.
Proof.
  cbv zeta. split; [reflexivity|].
  pose proof
    (upload_clears_edit_and_selection Examples.selecting Examples.photo
       (FileUtils.Loaded "data:image/png;base64,QUJD")
       (FileUtils.mkEncoded "QUJD" "image/png") eq_refl eq_refl) as H.
  cbv zeta in H.
  destruct H as (_ & _ & _ & _ & _ & Hedited & Hmode & Hregion & _).
  exact (conj Hedited (conj Hmode Hregion)).
Defined.

(** ** The format of an edited image *)

Lemma pngDataUrl_header (data : string) :
  headerOf (App.pngDataUrl data) = "data:image/png;base64".
Proof.
  unfold headerOf, App.pngDataUrl. cbn.
  destruct (split "," data); reflexivity.
Qed.

(** C10. When the response of the service carries an image, whatever
    format that part declares, both handlers store it as
    [data:image/png;base64,] followed by its data; and a region edit that
    starts from a stored image names [image/png] as the format of its
    base image. *)
Theorem edited_image_labelled_png :
  (forall ai c s response before blob text after,
      ai (promptRequest (App.pc_base64 c) (App.pc_mimeType c)
            (App.pc_prompt c) (App.pc_reference c))
      = Resolved response ->
      GeminiService.responseParts response
      = before ++ GeminiService.mkResponsePart (Some blob) text :: after ->
      noInlineData before ->
      App.editedImage
        (App.handleEditRequest_resume
           (GeminiService.outcome (App.runPromptCall ai c)) s)
      = Some
          (String.append "data:image/png;base64,"
             (GeminiService.blob_data blob)))
  /\ (forall browser ai c s size response before blob text after,
         GeminiService.decodeImage browser
           (baseImageUrl (App.sc_base64 c) (App.sc_mimeType c))
         = Some size ->
         GeminiService.getContext2d browser = true ->
         ai (selectionRequest (App.sc_base64 c) (App.sc_mimeType c)
               (App.sc_prompt c)
               (maskFor browser size (App.sc_selection c)))
         = Resolved response ->
         GeminiService.responseParts response
         = before ++ GeminiService.mkResponsePart (Some blob) text :: after ->
         noInlineData before ->
         App.editedImage
           (App.handleInpaintRequest_resume
              (GeminiService.outcome (App.runSelectionCall browser ai c)) s)
         = Some
             (String.append "data:image/png;base64,"
                (GeminiService.blob_data blob)))
  /\ (forall s s' c data,
         App.editedImage s = Some (App.pngDataUrl data) ->
         App.handleInpaintRequest_begin s = (s', Some c) ->
         App.sc_mimeType c = "image/png").
Proof.
  split; [|split].
  - intros ai c s response before blob text after Hanswer Hparts Hbefore.
    unfold App.runPromptCall. rewrite editImageWithPrompt_runs.
    unfold GeminiService.outcome. cbn [snd].
    rewrite Hanswer. unfold extracted.
    rewrite Hparts, (firstInlineData_first _ _ _ _ Hbefore).
    reflexivity.
  - intros browser ai c s size response before blob text after
      Hdecode Hcontext Hanswer Hparts Hbefore.
    unfold App.runSelectionCall. rewrite editImageWithSelection_runs.
    rewrite Hdecode, Hcontext. cbv zeta.
    unfold GeminiService.outcome. cbn [snd].
    rewrite Hanswer. unfold extracted.
    rewrite Hparts, (firstInlineData_first _ _ _ _ Hbefore).
    reflexivity.
  - intros s s' c data Hedited. unfold App.handleInpaintRequest_begin.
    rewrite Hedited.
    destruct (App.selection s) as [region|]; [|discriminate].
    destruct (negb (truthy (App.pngDataUrl data))
              || negb (truthy (trim (App.inpaintPrompt s))));
      [discriminate|].
    fold (headerOf (App.pngDataUrl data)). rewrite pngDataUrl_header.
    cbn [matchColonSemicolon lazyUntilSemicolon Ascii.eqb Bool.eqb
           isLineTerminator nat_of_ascii option_map].
    destruct (nth_error (split "," (App.pngDataUrl data)) 1)
      as [payload|]; [|discriminate].
    cbn. destruct (truthy payload); [|discriminate].
    now intros [= _ <-].
Qed.

(** [edited_image_labelled_png] on a response whose image part declares
    [image/jpeg]. *)
Lemma edited_image_labelled_png_witness :
  App.editedImage
    (App.handleEditRequest_resume
       (GeminiService.outcome
          (App.runPromptCall Examples.service
             (App.mkPromptCall "QUJD" "image/png" "remove the background"
                None)))
       Examples.loading)
  = Some "data:image/png;base64,REVG".
Proof.
  apply (proj1 edited_image_labelled_png Examples.service
           (App.mkPromptCall "QUJD" "image/png" "remove the background"
              None)
           Examples.loading Examples.jpegAnswer
           [GeminiService.mkResponsePart None (Some "Here it is.")]
           (GeminiService.mkBlob "REVG" "image/jpeg") None []);
    [reflexivity | reflexivity | repeat constructor].
Defined.

(** ** Which regions are submitted *)

Lemma positive_not_degenerate (r : Selection.t) :
  positiveRegion r -> degenerate r = false.
Proof.
  unfold positiveRegion, degenerate, gtb.
  destruct (Selection.width r) as [w| | |],
    (Selection.height r) as [h| | |]; cbn; try reflexivity.
  intros [Hw Hh]. apply Qltb_lt in Hw, Hh.
  apply orb_false_iff. split.
  - destruct (Qeq_bool w 0) eqn:E; [|reflexivity].
    apply Qeq_bool_iff in E. lra.
  - destruct (Qeq_bool h 0) eqn:E; [|reflexivity].
    apply Qeq_bool_iff in E. lra.
Qed.

Lemma handleInpaintRequest_begin_region (s s' : App.State)
  (c : App.SelectionCall) :
  App.handleInpaintRequest_begin s = (s', Some c) ->
  App.selection s = Some (App.sc_selection c).
Proof.
  unfold App.handleInpaintRequest_begin.
  destruct (App.editedImage s) as [edited|]; [|discriminate].
  destruct (App.selection s) as [region|]; [|discriminate].
  destruct (negb (truthy edited)
            || negb (truthy (trim (App.inpaintPrompt s))));
    [discriminate|].
  destruct (nth_error (split "," edited) 1) as [payload|]; [|discriminate].
  destruct (matchColonSemicolon (nth 0 (split "," edited) ""));
    [|discriminate].
  destruct (truthy payload); [|discriminate].
  now intros [= _ <-].
Qed.

Lemma clickInpaint_region (s s' : App.State) (c : App.SelectionCall) :
  Page.clickInpaint s = (s', Some c) ->
  App.selection s = Some (App.sc_selection c)
  /\ positiveRegion (App.sc_selection c).
Proof.
  unfold Page.clickInpaint.
  destruct (ImageCard.inpaintButtonEnabled (App.editedCardProps s))
    eqn:Henabled; [|discriminate].
  intros Hbegin. apply handleInpaintRequest_begin_region in Hbegin.
  split; [assumption|].
  unfold ImageCard.inpaintButtonEnabled, ImageCard.showInpaintPanel
    in Henabled.
  cbn [App.editedCardProps ImageCard.selection ImageCard.isSelecting]
    in Henabled.
  rewrite Hbegin in Henabled.
  rewrite !andb_true_iff in Henabled.
  destruct Henabled as [[_ [_ [Hw Hh]]] _]. now split.
Qed.

Lemma Forall_removeNth {A} (P : A -> Prop) (i : nat) (l : list A) :
  Forall P l -> Forall P (Page.removeNth i l).
Proof.
  intros H. revert i. induction H as [|a l Ha Hl IH]; intros [|i]; cbn;
    auto.
Qed.

Lemma step_pendingOk (p : Page.t) (ev : Page.Event) :
  Forall pendingOk (Page.pending p) ->
  Forall pendingOk (Page.pending (fst (Page.step p ev))).
Proof.
  intros Hok.
  destruct ev as [file|file|text|text| | | |container e|container e|
                  |i w]; cbn [Page.step].
  - destruct (App.inputsEnabled (Page.app p)); [|assumption].
    destruct (App.handleImageUpload_begin file (Page.app p))
      as [s [started|]]; cbn; apply Forall_app; split; auto;
      repeat constructor.
  - destruct (App.inputsEnabled (Page.app p)); [|assumption].
    destruct (App.handleReferenceImageUpload_begin file (Page.app p))
      as [s [started|]]; cbn; apply Forall_app; split; auto;
      repeat constructor.
  - destruct (App.inputsEnabled (Page.app p)); cbn; assumption.
  - destruct (ImageCard.inpaintPromptEnabled _); cbn; assumption.
  - destruct (Page.clickGenerate (Page.app p)) as [s [started|]]; cbn;
      apply Forall_app; split; auto; repeat constructor.
  - destruct (Page.clickInpaint (Page.app p)) as [s [c|]] eqn:Hclick;
      cbn; apply Forall_app; split; auto.
    constructor; [|constructor].
    apply (clickInpaint_region _ _ _ Hclick).
  - destruct (ImageCard.toggleButtonEnabled _); cbn; assumption.
  - destruct (ImageCard.handleMouseDown _ _ container e). assumption.
  - destruct (ImageCard.handleMouseMove _ _ container e). assumption.
  - assumption.
  - destruct (nth_error (Page.pending p) i) as [waiting|]; [|assumption].
    destruct waiting; cbn; now apply Forall_removeNth.
Qed.

Lemma run_pendingOk (evs : list Page.Event) (p : Page.t) :
  Forall pendingOk (Page.pending p) ->
  Forall pendingOk (Page.pending (fst (Page.run p evs))).
Proof.
  revert p. induction evs as [|ev evs IH]; intros p Hok; [assumption|].
  cbn [Page.run].
  pose proof (step_pendingOk p ev Hok) as Hstep.
  destruct (Page.step p ev) as [p1 out1].
  specialize (IH p1 Hstep).
  destruct (Page.run p1 evs) as [p2 out2]. exact IH.
Qed.

(** C2, as the code has it. [handleInpaintRequest] itself does not look at
    the extent of the region; the button that calls it is rendered only
    for a region of positive width and height. So a click on the page
    starts a region edit only for such a region, and on every page that
    the user can reach no region edit is awaited for a region of width or
    height zero. *)
Theorem inpaint_click_region_not_degenerate :
  (forall s s' c,
      Page.clickInpaint s = (s', Some c) ->
      App.selection s = Some (App.sc_selection c)
      /\ positiveRegion (App.sc_selection c)
      /\ degenerate (App.sc_selection c) = false)
  /\ (forall evs c,
         In (Page.Inpainting c) (Page.pending (Page.reached evs)) ->
         positiveRegion (App.sc_selection c)
         /\ degenerate (App.sc_selection c) = false).
Proof.
  split.
  - intros s s' c Hclick.
    destruct (clickInpaint_region s s' c Hclick) as [Hregion Hpositive].
    auto using positive_not_degenerate.
  - intros evs c Hin.
    pose proof (run_pendingOk evs Page.initial (Forall_nil _)) as Hok.
    rewrite Forall_forall in Hok. specialize (Hok _ Hin). cbn in Hok.
    auto using positive_not_degenerate.
Qed.

(** [inpaint_click_region_not_degenerate] on a drag followed by a click
    on the "Gerar" button of the edited card. *)
Lemma inpaint_click_region_not_degenerate_witness :
  exists c,
    nth_error (Page.pending (Page.reached Examples.dragThenInpaint)) 0
    = Some (Page.Inpainting c)
    /\ positiveRegion (App.sc_selection c)
    /\ degenerate (App.sc_selection c) = false.
Proof.
  destruct (nth_error (Page.pending (Page.reached Examples.dragThenInpaint))
              0) as [[f|f|c|c]|] eqn:Hfirst;
    try (vm_compute in Hfirst; discriminate).
  exists c. split; [reflexivity|].
  apply (proj2 inpaint_click_region_not_degenerate
           Examples.dragThenInpaint).
  exact (nth_error_In _ _ Hfirst).
Defined.

(** C2 as stated fails: with an edited image, a region of width zero and
    an instruction, [handleInpaintRequest] goes on to call
    [editImageWithSelection] with that region, and the call reaches the
    service. *)
Lemma handleInpaintRequest_submits_degenerate_region :
  let call :=
    App.mkSelectionCall "QUJD" "image/png" "make it blue" Examples.line in
  degenerate Examples.line = true
  /\ snd (App.handleInpaintRequest_begin Examples.lineSelected) = Some call
  /\ GeminiService.calls
       (App.runSelectionCall Examples.browser Examples.service call)
     = [selectionRequest "QUJD" "image/png" "make it blue" "TUFTSw=="].
Proof.
  cbv zeta. repeat split.
Qed.

(** ** One edit at a time *)

















End Controller.

(* ================================================================== *)
(** * More on [fileToBase64] *)

Section FileToBase64Further.
Import Js FileUtils.

Lemma append_assoc (a b c : string) :
  String.append (String.append a b) c = String.append a (String.append b c).
Proof. induction a as [|x a IH]; cbn; [reflexivity | now rewrite IH]. Qed.

Lemma noComma_append (a b : string) :
  noComma a -> noComma b -> noComma (String.append a b).
Proof.
  unfold noComma. induction a as [|x a IH]; cbn; intros Ha Hb c Hc.
  - now apply Hb.
  - destruct Hc as [<-|Hc]; [apply Ha; now left|].
    apply IH; auto.
Qed.

Lemma split_noComma (s : string) : noComma s -> split "," s = [s].
Proof.
  unfold noComma. induction s as [|c s IH]; intros Hfree; cbn.
  - reflexivity.
  - destruct (Ascii.eqb_spec c ",") as [->|_].
    + exfalso. apply (Hfree ","%char); cbn; auto.
    + rewrite IH; [reflexivity|]. intros d Hd. apply Hfree. cbn. auto.
Qed.

(** No segment of a split holds the separator. *)
Lemma split_segments_noComma (s seg : string) :
  In seg (split "," s) -> noComma seg.
Proof.
  revert seg. induction s as [|c s IH]; cbn; intros seg Hin.
  - destruct Hin as [<-|[]]. intros d [].
  - destruct (Ascii.eqb_spec c ",") as [->|Hc].
    + destruct Hin as [<-|Hin]; [intros d []|now apply IH].
    + destruct (split "," s) as [|first rest] eqn:E.
      * destruct Hin as [<-|[]]. intros d [<-|[]]. exact Hc.
      * destruct Hin as [<-|Hin].
        -- intros d [<-|Hd]; [exact Hc|].
           apply (IH first); [now left | exact Hd].
        -- apply IH. now right.
Qed.

Lemma payloadOf_noComma (result : string) : noComma (payloadOf result).
Proof.
  unfold payloadOf.
  destruct (nth_in_or_default 1 (split "," result) "") as [Hin| ->].
  - now apply split_segments_noComma in Hin.
  - intros d [].
Qed.

(** X1. What [fileToBase64] resolves with: the second comma-separated
    segment of the read result and a format tag, neither of them empty,
    and a payload without a comma. *)
Theorem fileToBase64_resolved_nonempty (file : File) (read : ReadOutcome)
  (encoded : Encoded) :
  fileToBase64 file read = Resolved encoded ->
  base64 encoded <> "" /\ mimeType encoded <> ""
  /\ noComma (base64 encoded)
  /\ exists result, read = Loaded result /\ base64 encoded = payloadOf result.
Proof.
  destruct read as [result|event]; [|discriminate].
  rewrite fileToBase64_unfold.
  destruct (truthy (headerOf result)); [|discriminate].
  destruct (truthy (payloadOf result)) eqn:Hpayload; [|discriminate].
  cbn [negb orb]. cbv zeta.
  set (tag := match matchColonSemicolon (headerOf result) with
              | Some group => group
              | None => type file
              end).
  destruct (truthy tag) eqn:Htag; [|discriminate].
  cbn [negb]. intros [= <-]. cbn [base64 mimeType].
  apply truthy_true_iff in Hpayload, Htag.
  repeat split; try assumption.
  - apply payloadOf_noComma.
  - now exists result.
Qed.

Lemma fileToBase64_resolved_nonempty_witness :
  base64 (mkEncoded "AAAA" "image/jpeg") <> ""
  /\ mimeType (mkEncoded "AAAA" "image/jpeg") <> ""
  /\ noComma (base64 (mkEncoded "AAAA" "image/jpeg"))
  /\ exists result,
       Loaded "data:image/jpeg;base64,AAAA,ignored" = Loaded result
       /\ base64 (mkEncoded "AAAA" "image/jpeg") = payloadOf result.
Proof.
  apply (fileToBase64_resolved_nonempty (mkFile "image/png" "blob:a")
           (Loaded "data:image/jpeg;base64,AAAA,ignored")
           (mkEncoded "AAAA" "image/jpeg")).
  reflexivity.
Defined.

Lemma dataUrl_split (tag payload : string) :
  noComma tag ->
  split "," (baseImageUrl payload tag)
  = String.append "data:" (String.append tag ";base64")
    :: split "," payload.
Proof.
  intros Htag. unfold baseImageUrl.
  change ";base64," with (String.append ";base64" ",").
  rewrite (append_assoc ";base64" "," payload), <- (append_assoc tag),
    <- (append_assoc "data:").
  change (String.append "," payload) with (String "," payload).
  apply split_prefix.
  apply (noComma_append "data:" (String.append tag ";base64")).
  - intros c Hc. cbn in Hc.
    repeat (destruct Hc as [<-|Hc]; [discriminate|]). destruct Hc.
  - apply noComma_append; [assumption|].
    intros c Hc. cbn in Hc.
    repeat (destruct Hc as [<-|Hc]; [discriminate|]). destruct Hc.
Qed.

(** X2. A read result of the shape [data:<tag>;base64,<payload>] gives
    back the tag and the payload, whatever type the file declares. *)
Theorem fileToBase64_data_url_round_trip (file : File)
  (tag payload : string) :
  plainTag tag -> noComma tag -> tag <> "" ->
  noComma payload -> payload <> "" ->
  fileToBase64 file (Loaded (baseImageUrl payload tag))
  = Resolved (mkEncoded payload tag).
Proof.
  intros Hplain Htag Hnonempty Hpayload Hdata.
  rewrite fileToBase64_unfold.
  unfold headerOf, payloadOf.
  rewrite (dataUrl_split tag payload Htag), (split_noComma payload Hpayload).
  cbn [nth].
  change (String.append tag ";base64")
    with (String.append tag (String ";" "base64")).
  rewrite (matchColonSemicolon_dataUrl tag "base64" Hplain).
  apply truthy_true_iff in Hnonempty, Hdata.
  rewrite Hdata, Hnonempty. reflexivity.
Qed.

Lemma fileToBase64_data_url_round_trip_witness :
  fileToBase64 (mkFile "" "blob:a")
    (Loaded (baseImageUrl "QUJD" "image/webp"))
  = Resolved (mkEncoded "QUJD" "image/webp").
Proof.
  apply (fileToBase64_data_url_round_trip (mkFile "" "blob:a")
           "image/webp" "QUJD");
    try discriminate;
    intros c Hc; cbn in Hc;
    repeat (destruct Hc as [<-|Hc];
            [first [discriminate | split; [discriminate | reflexivity]]|]);
    destruct Hc.
Defined.

(** X3. Only the first two comma-separated segments of the read result
    count: whatever follows a second comma changes nothing. *)
Theorem fileToBase64_ignores_after_second_comma (file : File)
  (header payload rest : string) :
  noComma header -> noComma payload ->
  fileToBase64 file
    (Loaded
       (String.append header
          (String "," (String.append payload (String "," rest)))))
  = fileToBase64 file
      (Loaded (String.append header (String "," payload))).
Proof.
  intros Hheader Hpayload. rewrite !fileToBase64_unfold.
  unfold headerOf, payloadOf.
  rewrite !(split_prefix "," header) by exact Hheader.
  rewrite (split_prefix "," payload) by exact Hpayload.
  rewrite (split_noComma payload Hpayload). reflexivity.
Qed.

Lemma fileToBase64_ignores_after_second_comma_witness :
  fileToBase64 (mkFile "image/png" "blob:a")
    (Loaded "data:image/png;base64,QUJD,REVG,R0hJ")
  = fileToBase64 (mkFile "image/png" "blob:a")
      (Loaded "data:image/png;base64,QUJD").
Proof.
  apply (fileToBase64_ignores_after_second_comma
           (mkFile "image/png" "blob:a") "data:image/png;base64" "QUJD"
           "REVG,R0hJ");
    intros c Hc; cbn in Hc;
    repeat (destruct Hc as [<-|Hc]; [discriminate|]); destruct Hc.
Defined.

(** X4. A header whose pattern matches with an empty tag makes the promise
    reject, also when the file declares a type: the declared type is the
    fallback for a header without the pattern, not for an empty tag. *)
Theorem fileToBase64_empty_tag_rejected (file : File) (result : string) :
  headerOf result <> "" -> payloadOf result <> "" ->
  matchColonSemicolon (headerOf result) = Some "" ->
  fileToBase64 file (Loaded result) = Rejected (Error noMimeType).
Proof.
  intros Hheader Hpayload Hmatch. rewrite fileToBase64_unfold.
  apply truthy_true_iff in Hheader, Hpayload.
  now rewrite Hheader, Hpayload, Hmatch.
Qed.

Lemma fileToBase64_empty_tag_rejected_witness :
  fileToBase64 (mkFile "image/png" "blob:a") (Loaded "data:;base64,QUJD")
  = Rejected (Error noMimeType).
Proof.
  apply (fileToBase64_empty_tag_rejected (mkFile "image/png" "blob:a")
           "data:;base64,QUJD");
    [discriminate | discriminate | reflexivity].
Defined.

End FileToBase64Further.

(* ================================================================== *)
(** * More on the edit pipeline *)

Section PipelineFurther.
Import Js GeminiService.

Variable ai : Service.
Variable browser : Browser.

(** X5. However a whole-image edit fails (the call is rejected, the
    response has no candidate, no content, no parts or no image part), the
    promise is rejected with one and the same error, the one of the
    [catch] block; and it resolves only with the data of the first image
    part of an answer of the service. *)
Theorem editImageWithPrompt_outcomes
  (base64ImageData mimeType prompt : string)
  (referenceImage : option ReferenceImage) :
  let run :=
    editImageWithPrompt ai base64ImageData mimeType prompt referenceImage in
  let request :=
    promptRequest base64ImageData mimeType prompt referenceImage in
  calls run = [request]
  /\ (forall reason,
         outcome run = Rejected reason -> reason = Error editFailed)
  /\ (forall data,
         outcome run = Resolved data <->
         exists response,
           ai request = Resolved response
           /\ firstInlineData (responseParts response) = Some data).
Proof.
  cbv zeta. rewrite editImageWithPrompt_runs. unfold calls, outcome, extracted.
  cbn [fst snd]. split; [reflexivity|].
  destruct (ai _) as [response|failure].
  - destruct (firstInlineData (responseParts response)) as [found|] eqn:E.
    + split; [discriminate|]. intros data. split.
      * intros [= <-]. now exists response.
      * intros (r & [= <-] & Hr). congruence.
    + split; [now intros reason [= <-]|]. intros data. split.
      * discriminate.
      * intros (r & [= <-] & Hr). congruence.
  - split; [now intros reason [= <-]|]. intros data. split.
    + discriminate.
    + intros (r & Hr & _). discriminate.
Qed.

(** X6. A region edit calls the service at most once, and not at all when
    the base image does not decode or no 2D context is to be had. However
    it fails (the image, the context, the call, a response without an
    image), the promise is rejected with one and the same error. *)
Theorem editImageWithSelection_outcomes
  (base64ImageData mimeType prompt : string) (selection : Selection.t) :
  let run :=
    editImageWithSelection browser ai base64ImageData mimeType prompt
      selection in
  (List.length (calls run) <= 1)%nat
  /\ (decodeImage browser (baseImageUrl base64ImageData mimeType) = None
      \/ getContext2d browser = false ->
      calls run = [] /\ outcome run = Rejected (Error editSelectionFailed))
  /\ (forall reason,
         outcome run = Rejected reason ->
         reason = Error editSelectionFailed).
Proof.
  cbv zeta. rewrite editImageWithSelection_runs.
  destruct (decodeImage browser _) as [size|].
  - destruct (getContext2d browser).
    + cbv zeta. unfold calls, outcome, extracted. cbn [fst snd List.length].
      split; [lia|]. split; [intros [H|H]; discriminate|].
      destruct (ai _) as [response|failure].
      * destruct (firstInlineData _); [discriminate|].
        now intros reason [= <-].
      * now intros reason [= <-].
    + unfold calls, outcome. cbn. split; [lia|]. split; [auto|].
      now intros reason [= <-].
  - unfold calls, outcome. cbn. split; [lia|]. split; [auto|].
    now intros reason [= <-].
Qed.

Lemma responseParts_first (first : Candidate) (others : list Candidate) :
  responseParts (mkResponse (Some (first :: others)))
  = responseParts (mkResponse (Some [first])).
Proof. reflexivity. Qed.

End PipelineFurther.

(** X7. Only the first candidate of a response is read: the outcome of a
    whole-image edit is the same with and without the candidates that
    follow it, and a response without candidates is a failure. *)
Theorem only_first_candidate_is_read
  (base64ImageData mimeType prompt : string)
  (referenceImage : option GeminiService.ReferenceImage)
  (first : GeminiService.Candidate)
  (others : list GeminiService.Candidate) :
  let edit response :=
    GeminiService.outcome
      (GeminiService.editImageWithPrompt
         (fun _ => Js.Resolved (GeminiService.mkResponse response))
         base64ImageData mimeType prompt referenceImage) in
  edit (Some (first :: others)) = edit (Some [first])
  /\ edit (Some []) = Js.Rejected (Js.Error GeminiService.editFailed)
  /\ edit None = Js.Rejected (Js.Error GeminiService.editFailed).
Proof.
  cbv beta zeta. rewrite !editImageWithPrompt_runs.
  unfold GeminiService.outcome, extracted. cbn [snd].
  rewrite responseParts_first. repeat split.
Qed.

(* ================================================================== *)
(** * More on the mask *)

Section MaskFurther.
Import JsNumber GeminiService.

Lemma drawMask_unfold (region : Selection.t) (W H : N) :
  drawMask (Canvas.create W H) region
  = Canvas.fillRect
      (Canvas.setFillStyle
         (Canvas.fillRect (Canvas.setFillStyle (Canvas.create W H) "black")
            (Fin 0) (Fin 0) (ofN W) (ofN H))
         "white")
      (mul (div (Selection.x region) (Fin 100)) (ofN W))
      (mul (div (Selection.y region) (Fin 100)) (ofN H))
      (mul (div (Selection.width region) (Fin 100)) (ofN W))
      (mul (div (Selection.height region) (Fin 100)) (ofN H)).
Proof.
  unfold drawMask. cbv zeta.
  destruct (fillRect_size (Canvas.setFillStyle (Canvas.create W H) "black")
              (Fin 0) (Fin 0) (ofN (Canvas.width
                 (Canvas.setFillStyle (Canvas.create W H) "black")))
              (ofN (Canvas.height
                 (Canvas.setFillStyle (Canvas.create W H) "black"))))
    as [-> ->].
  reflexivity.
Qed.

(** A coordinate that is not finite stays so when it is scaled. *)
Lemma scaled_finite (a : number) (n : N) :
  isFinite (mul (div a (Fin 100)) (ofN n)) = true -> isFinite a = true.
Proof.
  destruct a as [q| | |]; cbn; try reflexivity; try discriminate.
  - unfold ofN, mul, sign. now destruct (Qcompare _ 0).
  - unfold ofN, mul, sign. now destruct (Qcompare _ 0).
Qed.

Lemma fillRect_not_finite (c : Canvas.t) (x y w h : number) :
  isFinite x && isFinite y && isFinite w && isFinite h = false ->
  Canvas.fillRect c x y w h = c.
Proof. destruct x, y, w, h; cbn; try reflexivity; discriminate. Qed.

(** Before the white rectangle, every pixel of the raster is black. *)
Lemma background_pixel (W H col row : N) :
  (col < W)%N -> (row < H)%N ->
  Canvas.pixel
    (Canvas.setFillStyle
       (Canvas.fillRect (Canvas.setFillStyle (Canvas.create W H) "black")
          (Fin 0) (Fin 0) (ofN W) (ofN H))
       "white") col row
  = Some (Canvas.Solid "black").
Proof.
  intros Hcol Hrow. unfold Canvas.fillRect, ofN.
  change (inject_Z (Z.of_N W)) with (Canvas.ofN W).
  change (inject_Z (Z.of_N H)) with (Canvas.ofN H).
  rewrite (ofN_positive col W Hcol), (ofN_positive row H Hrow).
  unfold Canvas.pixel.
  cbn [orb Canvas.setFillStyle Canvas.create Canvas.width Canvas.height
         Canvas.fillStyle Canvas.fills app fold_left].
  apply N.ltb_lt in Hcol as Hc, Hrow as Hr. rewrite Hc, Hr. cbn [andb].
  unfold Canvas.paint. fold (backgroundFill W H).
  rewrite coverage_full; cbn; try apply ofN_nonneg; try reflexivity.
  - pose proof (ofN_succ_le col W Hcol). lra.
  - pose proof (ofN_succ_le row H Hrow). lra.
Qed.

Lemma percent_scale (q : Q) (n : N) :
  q / 100 * Canvas.ofN n == q * Canvas.ofN n * (1 # 100).
Proof. unfold Qdiv. change (/ 100) with (1 # 100). ring. Qed.

(** X8. The mask of a region that has a coordinate that is not a finite
    number, or a width or height of zero, is black all over: the white
    rectangle is not painted. *)
Theorem mask_without_area_is_black (region : Selection.t)
  (W H col row : N) :
  (col < W)%N -> (row < H)%N ->
  notFinite region \/ degenerate region = true ->
  Canvas.pixel (drawMask (Canvas.create W H) region) col row
  = Some (Canvas.Solid "black").
Proof.
  intros Hcol Hrow Hregion.
  destruct region as [x y w h].
  assert (notFinite (Selection.mk x y w h)
          \/ exists qx qy qw qh,
               x = Fin qx /\ y = Fin qy /\ w = Fin qw /\ h = Fin qh
               /\ (qw == 0 \/ qh == 0)) as [Hnot|Hzero].
  { destruct Hregion as [Hnot|Hdeg]; [now left|].
    unfold notFinite, degenerate in *. cbn in *.
    destruct x as [qx| | |], y as [qy| | |]; try (now left);
      destruct w as [qw| | |]; try discriminate;
      destruct h as [qh| | |]; try discriminate.
    right. exists qx, qy, qw, qh. repeat split.
    apply orb_true_iff in Hdeg as [Hd|Hd]; apply Qeq_bool_iff in Hd; auto. }
  - rewrite drawMask_unfold, fillRect_not_finite.
    + now apply background_pixel.
    + unfold notFinite in Hnot. cbn in Hnot.
      cbn [Selection.x Selection.y Selection.width Selection.height].
      destruct (isFinite (mul (div x (Fin 100)) (ofN W))) eqn:Ex;
        [|reflexivity].
      destruct (isFinite (mul (div y (Fin 100)) (ofN H))) eqn:Ey;
        [|reflexivity].
      destruct (isFinite (mul (div w (Fin 100)) (ofN W))) eqn:Ew;
        [|reflexivity].
      destruct (isFinite (mul (div h (Fin 100)) (ofN H))) eqn:Eh;
        [|reflexivity].
      apply scaled_finite in Ex, Ey, Ew, Eh.
      rewrite Ex, Ey, Ew, Eh in Hnot. discriminate.
  - destruct Hzero as (qx & qy & qw & qh & -> & -> & -> & -> & Hz).
    rewrite mask_pixel by assumption. cbv zeta.
    unfold scaledFill. cbn [Canvas.fw Canvas.fh].
    assert (Qeq_bool (qw / 100 * Canvas.ofN W) 0
            || Qeq_bool (qh / 100 * Canvas.ofN H) 0 = true) as ->;
      [|reflexivity].
    apply orb_true_iff.
    destruct Hz as [Hz|Hz]; [left|right]; apply Qeq_bool_iff;
      rewrite percent_scale, Hz; ring.
Qed.

Lemma mask_without_area_is_black_witness :
  Canvas.pixel
    (drawMask (Canvas.create 4 3)
       (Selection.mk NaN (Fin 10) (Fin 20) (Fin 30))) 2 1
  = Some (Canvas.Solid "black")
  /\ Canvas.pixel
       (drawMask (Canvas.create 4 3)
          (Selection.mk (Fin 10) (Fin 10) (Fin 0) (Fin 30))) 2 1
     = Some (Canvas.Solid "black").
Proof.
  split.
  - apply (mask_without_area_is_black
             (Selection.mk NaN (Fin 10) (Fin 20) (Fin 30)) 4 3 2 1);
      [reflexivity | reflexivity | left; reflexivity].
  - apply (mask_without_area_is_black
             (Selection.mk (Fin 10) (Fin 10) (Fin 0) (Fin 30)) 4 3 2 1);
      [reflexivity | reflexivity | right; reflexivity].
Defined.




Lemma grid_trichotomy (p q : Q) (col : N) :
  integral p -> integral q ->
  (p <= Canvas.ofN col /\ Canvas.ofN col + 1 <= p + q)
  \/ Canvas.ofN col + 1 <= p \/ p + q <= Canvas.ofN col.
Proof.
  intros [a Ha] [c Hc]. rewrite Ha, Hc. unfold Canvas.ofN.
  change 1 with (inject_Z 1). rewrite <- !inject_Z_plus, <- !Zle_Qle.
  lia.
Qed.

(** X10. When the scaled rectangle falls on whole pixels, the mask has two
    tones only: every pixel of the raster is white or black, none is a
    blend. *)
Theorem mask_on_pixel_grid_has_two_tones (x y w h : Q)
  (W H col row : N) :
  0 <= w -> 0 <= h -> onPixelGrid (scaledFill x y w h W H) ->
  (col < W)%N -> (row < H)%N ->
  let tone :=
    Canvas.pixel
      (drawMask (Canvas.create W H)
         (Selection.mk (Fin x) (Fin y) (Fin w) (Fin h))) col row in
  tone = Some (Canvas.Solid "white") \/ tone = Some (Canvas.Solid "black").
Proof.
  intros Hw Hh (Hfx & Hfy & Hfw & Hfh) Hcol Hrow. cbv zeta.
  destruct (grid_trichotomy _ _ col Hfx Hfw) as [[Hx0 Hx1]|Hxout];
    [destruct (grid_trichotomy _ _ row Hfy Hfh) as [[Hy0 Hy1]|Hyout]|].
  - left. apply mask_pixel_within; try assumption. now repeat split.
  - right. apply mask_pixel_apart; try assumption.
    unfold pixelApart. tauto.
  - right. apply mask_pixel_apart; try assumption.
    unfold pixelApart. tauto.
Qed.

Lemma mask_on_pixel_grid_has_two_tones_witness :
  let tone :=
    Canvas.pixel
      (drawMask (Canvas.create 200 100)
         (Selection.mk (Fin 10) (Fin 20) (Fin 30) (Fin 40))) 79 20 in
  tone = Some (Canvas.Solid "white") \/ tone = Some (Canvas.Solid "black").
Proof.
  apply (mask_on_pixel_grid_has_two_tones 10 20 30 40 200 100 79 20);
    try (cbn; lra); try reflexivity.
  repeat split;
    [exists 20%Z | exists 20%Z | exists 60%Z | exists 40%Z]; reflexivity.
Defined.

End MaskFurther.



(* ================================================================== *)
(** * More on the region selector *)

Section SelectorFurther.
Import JsNumber ImageCard.

Lemma clampPercent_cases (q : Q) :
  (q <= 0 -> clampPercent q == 0)
  /\ (100 <= q -> clampPercent q == 100)
  /\ (0 <= q <= 100 -> clampPercent q == q).
Proof.
  unfold clampPercent.
  destruct (Qltb q 0) eqn:Hlow; [apply Qltb_lt in Hlow|apply Qltb_ge in Hlow];
    (destruct (Qltb 100 q) eqn:Hhigh;
     [apply Qltb_lt in Hhigh|apply Qltb_ge in Hhigh]);
    (split; [|split]); intros; lra.
Qed.

Lemma percentOf_cases (pos origin extent : Q) :
  0 < extent ->
  (pos <= origin -> percentOf pos origin extent <= 0)
  /\ (origin + extent <= pos -> 100 <= percentOf pos origin extent)
  /\ (origin <= pos <= origin + extent ->
      0 <= percentOf pos origin extent <= 100).
Proof.
  intros Hextent. unfold percentOf.
  assert (pos <= origin -> (pos - origin) / extent <= 0) as Hbefore
    by (intros; apply Qle_shift_div_r; [assumption | lra]).
  assert (origin + extent <= pos -> 1 <= (pos - origin) / extent)
    as Hafter
    by (intros; apply Qle_shift_div_l; [assumption | lra]).
  assert (origin <= pos -> 0 <= (pos - origin) / extent) as Hlow
    by (intros; apply Qle_shift_div_l; [assumption | lra]).
  assert (pos <= origin + extent -> (pos - origin) / extent <= 1)
    as Hhigh
    by (intros; apply Qle_shift_div_r; [assumption | lra]).
  generalize dependent ((pos - origin) / extent). intros t **.
  split; [|split]; intros Hpos.
  - specialize (Hbefore Hpos). lra.
  - specialize (Hafter Hpos). lra.
  - specialize (Hlow (proj1 Hpos)). specialize (Hhigh (proj2 Hpos)).
    split; lra.
Qed.

(** X11. Over a container that has an extent, a pointer within the
    container gets its exact percentage on each axis; a pointer to the left
    of it or above it gets 0, a pointer to the right of it or below it
    gets 100. *)
Theorem pointer_snaps_to_the_container (rect : DOMRect.t)
  (e : MouseEvent.t) :
  0 < DOMRect.width rect -> 0 < DOMRect.height rect ->
  exists x y : Q,
    getRelativeCoords (Some rect) e = Some (mkPoint (Fin x) (Fin y))
    /\ (MouseEvent.clientX e <= DOMRect.left rect -> x == 0)
    /\ (DOMRect.left rect + DOMRect.width rect <= MouseEvent.clientX e ->
        x == 100)
    /\ (DOMRect.left rect <= MouseEvent.clientX e
        <= DOMRect.left rect + DOMRect.width rect ->
        x == percentOf (MouseEvent.clientX e) (DOMRect.left rect)
               (DOMRect.width rect))
    /\ (MouseEvent.clientY e <= DOMRect.top rect -> y == 0)
    /\ (DOMRect.top rect + DOMRect.height rect <= MouseEvent.clientY e ->
        y == 100)
    /\ (DOMRect.top rect <= MouseEvent.clientY e
        <= DOMRect.top rect + DOMRect.height rect ->
        y == percentOf (MouseEvent.clientY e) (DOMRect.top rect)
               (DOMRect.height rect)).
Proof.
  intros Hw Hh.
  destruct (getRelativeCoords_clamped rect e Hw Hh)
    as (x & y & Hcoords & Hx & Hy & _).
  exists x, y. split; [exact Hcoords|].
  destruct (percentOf_cases (MouseEvent.clientX e) (DOMRect.left rect)
              (DOMRect.width rect) Hw) as (Hx1 & Hx2 & Hx3).
  destruct (percentOf_cases (MouseEvent.clientY e) (DOMRect.top rect)
              (DOMRect.height rect) Hh) as (Hy1 & Hy2 & Hy3).
  destruct (clampPercent_cases
              (percentOf (MouseEvent.clientX e) (DOMRect.left rect)
                 (DOMRect.width rect))) as (Cx1 & Cx2 & Cx3).
  destruct (clampPercent_cases
              (percentOf (MouseEvent.clientY e) (DOMRect.top rect)
                 (DOMRect.height rect))) as (Cy1 & Cy2 & Cy3).
  split; [intros Hpos; rewrite Hx; auto|].
  split; [intros Hpos; rewrite Hx; auto|].
  split; [intros Hpos; rewrite Hx; auto|].
  split; [intros Hpos; rewrite Hy; auto|].
  split; intros Hpos; rewrite Hy; auto.
Qed.

Lemma pointer_snaps_to_the_container_witness :
  exists x y : Q,
    getRelativeCoords (Some (DOMRect.mk 10 20 200 100))
      (MouseEvent.mk 60 500)
    = Some (mkPoint (Fin x) (Fin y))
    /\ x == percentOf 60 10 200 /\ y == 100.
Proof.
  destruct (pointer_snaps_to_the_container (DOMRect.mk 10 20 200 100)
              (MouseEvent.mk 60 500) eq_refl eq_refl)
    as (x & y & Hcoords & _ & _ & Hx & _ & Hy & _).
  exists x, y. split; [exact Hcoords|]. split.
  - apply Hx. cbn. lra.
  - apply Hy. cbn. lra.
Defined.




End SelectorFurther.



(* ================================================================== *)
(** * More on the drag, on the page *)

Section DragOnPage.
Import Js JsNumber.

Lemma page_eta (p : Page.t) :
  Page.mk (Page.app p) (Page.card p) (Page.pending p) = p.
Proof. now destruct p. Qed.

(** A click on the "Gerar" button of the edited card while the inpaint
    panel is not shown. *)
Lemma clickInpaint_without_panel (p : Page.t) :
  ImageCard.showInpaintPanel (App.editedCardProps (Page.app p)) = false ->
  Page.step p Page.ClickInpaint = (p, []).
Proof.
  intros Hpanel. cbn [Page.step]. unfold Page.clickInpaint.
  unfold ImageCard.inpaintButtonEnabled. rewrite Hpanel.
  rewrite andb_false_r. cbn [andb Page.queue].
  now rewrite app_nil_r, page_eta.
Qed.

(** X13. A mouse down in selection mode starts a drag: it stores a region
    of width and height zero at the pointer and keeps the pointer as the
    anchor. For that region the inpaint panel is not shown, and a click
    where its button would be changes nothing and calls nothing. *)
Theorem mouse_down_stores_empty_region (p : Page.t)
  (container : option DOMRect.t) (e : MouseEvent.t)
  (at_ : ImageCard.Point) :
  App.isSelecting (Page.app p) = true ->
  ImageCard.getRelativeCoords container e = Some at_ ->
  let p' := fst (Page.step p (Page.MouseDown container e)) in
  App.selection (Page.app p')
  = Some
      (Selection.mk (ImageCard.px at_) (ImageCard.py at_) (Fin 0) (Fin 0))
  /\ ImageCard.isDrawing (Page.card p') = true
  /\ ImageCard.startPos (Page.card p') = at_
  /\ ImageCard.showInpaintPanel (App.editedCardProps (Page.app p')) = false
  /\ Page.step p' Page.ClickInpaint = (p', []).
Proof.
  intros Hmode Hcoords.
  assert (fst (Page.step p (Page.MouseDown container e))
          = Page.mk
              (App.setSelection
                 (Some
                    (Selection.mk (ImageCard.px at_) (ImageCard.py at_)
                       (Fin 0) (Fin 0)))
                 (Page.app p))
              (ImageCard.mkState true at_) (Page.pending p)) as Hstep.
  { cbn [Page.step]. unfold ImageCard.handleMouseDown.
    cbn [App.editedCardProps ImageCard.isSelecting
           ImageCard.onSelectionChange].
    now rewrite Hmode, Hcoords. }
  cbv zeta. rewrite Hstep.
  assert (ImageCard.showInpaintPanel
            (App.editedCardProps
               (App.setSelection
                  (Some
                     (Selection.mk (ImageCard.px at_) (ImageCard.py at_)
                        (Fin 0) (Fin 0)))
                  (Page.app p))) = false) as Hpanel.
  { unfold ImageCard.showInpaintPanel. cbn. now rewrite andb_false_r. }
  repeat split; try assumption.
  now apply clickInpaint_without_panel.
Qed.

Lemma mouse_down_stores_empty_region_witness :
  let p := Page.mk Examples.selecting ImageCard.initial [] in
  let p' :=
    fst
      (Page.step p
         (Page.MouseDown (Some Examples.surface) (MouseEvent.mk 300 300))) in
  ImageCard.isDrawing (Page.card p') = true
  /\ Page.step p' Page.ClickInpaint = (p', []).
Proof.
  cbv zeta.
  destruct (mouse_down_stores_empty_region
              (Page.mk Examples.selecting ImageCard.initial [])
              (Some Examples.surface) (MouseEvent.mk 300 300)
              (ImageCard.mkPoint (Fin ((300 - 0) / 400 * 100))
                 (Fin ((300 - 0) / 400 * 100)))
              eq_refl eq_refl) as (_ & Hdrawing & _ & _ & Hclick).
  exact (conj Hdrawing Hclick).
Defined.

Lemma mouseMove_when_released (p : Page.t)
  (container : option DOMRect.t) (e : MouseEvent.t) :
  ImageCard.isDrawing (Page.card p) = false ->
  Page.step p (Page.MouseMove container e) = (p, []).
Proof.
  intros Hreleased. cbn [Page.step]. unfold ImageCard.handleMouseMove.
  rewrite Hreleased. cbn [negb orb Page.deliver]. now rewrite page_eta.
Qed.

Lemma moves_when_released (evs : list Page.Event) (p : Page.t) :
  ImageCard.isDrawing (Page.card p) = false ->
  forallb isMouseMove evs = true ->
  Page.run p evs = (p, []).
Proof.
  intros Hreleased. induction evs as [|ev evs IH]; intros Hmoves;
    [reflexivity|].
  cbn in Hmoves. apply andb_true_iff in Hmoves as [Hmove Hrest].
  destruct ev; try discriminate.
  cbn [Page.run]. rewrite (mouseMove_when_released p _ _ Hreleased).
  now rewrite (IH Hrest).
Qed.

(** X14. The end of a drag freezes the region: after a mouse up, or the
    pointer leaving the card, no number of pointer moves changes the page
    or calls the service; and before the first mouse down none does
    either. *)
Theorem moves_after_mouse_up_change_nothing (p : Page.t)
  (evs : list Page.Event) :
  forallb isMouseMove evs = true ->
  let released := fst (Page.step p Page.MouseUp) in
  Page.run released evs = (released, [])
  /\ Page.run Page.initial evs = (Page.initial, []).
Proof.
  intros Hmoves. cbv zeta. split.
  - now apply moves_when_released.
  - now apply moves_when_released.
Qed.

Lemma moves_after_mouse_up_change_nothing_witness :
  let released :=
    fst (Page.step (Page.reached Examples.dragUpLeft) Page.MouseUp) in
  Page.run released
    [ Page.MouseMove (Some Examples.surface) (MouseEvent.mk 10 10);
      Page.MouseMove (Some Examples.surface) (MouseEvent.mk 390 390) ]
  = (released, []).
Proof.
  apply (moves_after_mouse_up_change_nothing
           (Page.reached Examples.dragUpLeft)
           [ Page.MouseMove (Some Examples.surface) (MouseEvent.mk 10 10);
             Page.MouseMove (Some Examples.surface)
               (MouseEvent.mk 390 390) ]).
  reflexivity.
Defined.

End DragOnPage.



(* ================================================================== *)
(** * More on the controller *)

Section ControllerFurther.
Import Js JsNumber.

(** X15. The two ways an upload of a primary image fails. A file that is
    not an image only sets the error message: no read is started and the
    edited image, the selection mode and the region stay. A file that is
    an image but whose read or decoding fails keeps the former original
    image, yet the edited image, the selection mode and the region are
    gone by then. *)
Theorem failed_upload_outcomes (s : App.State) (f : FileUtils.File)
  (read : FileUtils.ReadOutcome) :
  (startsWith "image/" (FileUtils.type f) = false ->
   App.handleImageUpload_begin (Some f) s
   = (App.setError (Some App.invalidFileType) s, None)
   /\ App.handleImageUpload (Some f) read s
      = App.setError (Some App.invalidFileType) s)
  /\ (forall reason,
         startsWith "image/" (FileUtils.type f) = true ->
         FileUtils.fileToBase64 f read = Rejected reason ->
         let s' := App.handleImageUpload (Some f) read s in
         App.originalImage s' = App.originalImage s
         /\ App.error s' = Some App.cannotProcessFile
         /\ App.editedImage s' = None
         /\ App.isSelecting s' = false
         /\ App.selection s' = None).
Proof.
  unfold App.handleImageUpload, App.handleImageUpload_begin. split.
  - intros ->. cbn. auto.
  - intros reason -> Hread. cbn. unfold App.handleImageUpload_resume.
    rewrite Hread. cbn. auto.
Qed.

Lemma failed_upload_outcomes_witness :
  App.handleImageUpload
    (Some (FileUtils.mkFile "application/pdf" "blob:doc"))
    (FileUtils.Loaded "data:application/pdf;base64,QUJD") Examples.selecting
  = App.setError (Some App.invalidFileType) Examples.selecting
  /\ App.editedImage
       (App.handleImageUpload (Some Examples.photo)
          (FileUtils.Loaded "not a data URL") Examples.selecting)
     = None.
Proof.
  split.
  - apply (proj1 (failed_upload_outcomes Examples.selecting
                    (FileUtils.mkFile "application/pdf" "blob:doc")
                    (FileUtils.Loaded "data:application/pdf;base64,QUJD"))).
    reflexivity.
  - apply (proj2 (failed_upload_outcomes Examples.selecting Examples.photo
                    (FileUtils.Loaded "not a data URL"))
             (Error FileUtils.invalidFileFormat));
      reflexivity.
Defined.






Lemma handleInpaintRequest_begin_started (s s1 : App.State)
  (c : App.SelectionCall) :
  App.handleInpaintRequest_begin s = (s1, Some c) ->
  s1 = App.setError None (App.setIsLoading true s)
  /\ App.sc_prompt c = App.inpaintPrompt s
  /\ trim (App.inpaintPrompt s) <> ""
  /\ App.sc_base64 c <> ""
  /\ exists edited,
       App.editedImage s = Some edited
       /\ matchColonSemicolon (headerOf edited) = Some (App.sc_mimeType c).
Proof.
  unfold App.handleInpaintRequest_begin.
  destruct (App.editedImage s) as [edited|]; [|discriminate].
  destruct (App.selection s) as [region|]; [|discriminate].
  destruct (truthy edited); [|discriminate].
  destruct (truthy (trim (App.inpaintPrompt s))) eqn:Hprompt;
    [|discriminate].
  cbn [negb orb]. fold (headerOf edited).
  destruct (nth_error (split "," edited) 1) as [payload|]; [|discriminate].
  destruct (matchColonSemicolon (headerOf edited)) as [tag|] eqn:Htag;
    [|discriminate].
  destruct (truthy payload) eqn:Hpayload; [|discriminate].
  intros [= <- <-]. cbn.
  apply truthy_true_iff in Hprompt, Hpayload.
  repeat split; try assumption. now exists edited.
Qed.







(** X20. The selection button. Leaving selection mode clears the region
    and the instruction typed for it, so that the inpaint panel is gone;
    entering it clears nothing. Either way the images, the error and the
    loading flag stay. *)
Theorem selection_toggle_outcomes (s : App.State) :
  let s' := App.handleSelectAreaToggle s in
  App.isSelecting s' = negb (App.isSelecting s)
  /\ (App.isSelecting s = true ->
      App.selection s' = None /\ App.inpaintPrompt s' = ""
      /\ ImageCard.showInpaintPanel (App.editedCardProps s') = false)
  /\ (App.isSelecting s = false ->
      App.selection s' = App.selection s
      /\ App.inpaintPrompt s' = App.inpaintPrompt s)
  /\ App.originalImage s' = App.originalImage s
  /\ App.referenceImage s' = App.referenceImage s
  /\ App.editedImage s' = App.editedImage s
  /\ App.prompt s' = App.prompt s
  /\ App.error s' = App.error s
  /\ App.isLoading s' = App.isLoading s.
Proof.
  cbv zeta. unfold App.handleSelectAreaToggle.
  destruct (App.isSelecting s); cbn; repeat split; try discriminate.
Qed.

End ControllerFurther.



(* ================================================================== *)
(** * What every page keeps *)

Section PageInvariants.
Import Js JsNumber.

(** ** [trim] *)

Lemma trimEnd_idempotent (s : string) : trimEnd (trimEnd s) = trimEnd s.
Proof.
  induction s as [|c s IH]; [reflexivity|]. cbn [trimEnd].
  destruct (trimEnd s) as [|d kept] eqn:Hkept.
  - destruct (isWhiteSpace c) eqn:Hc; [reflexivity|].
    cbn [trimEnd]. now rewrite Hc.
  - change (trimEnd (String c (String d kept)))
      with (match trimEnd (String d kept) with
            | EmptyString =>
                if isWhiteSpace c then EmptyString else String c EmptyString
            | String _ _ as k => String c k
            end).
    now rewrite IH.
Qed.

Lemma trimStart_head (s : string) :
  trimStart s = ""
  \/ exists c rest, trimStart s = String c rest /\ isWhiteSpace c = false.
Proof.
  induction s as [|c s IH]; [now left|]. cbn [trimStart].
  destruct (isWhiteSpace c) eqn:Hc; [exact IH|].
  right. now exists c, s.
Qed.

Lemma trimEnd_head (c : ascii) (s : string) :
  isWhiteSpace c = false -> exists rest, trimEnd (String c s) = String c rest.
Proof.
  intros Hc. cbn [trimEnd]. rewrite Hc.
  destruct (trimEnd s) as [|d kept]; eauto.
Qed.

Lemma trim_idempotent (s : string) : trim (trim s) = trim s.
Proof.
  unfold trim.
  destruct (trimStart_head s) as [->|(c & rest & -> & Hc)]; [reflexivity|].
  destruct (trimEnd_head c rest Hc) as (kept & Hkept).
  rewrite Hkept. cbn [trimStart]. rewrite Hc, <- Hkept.
  apply trimEnd_idempotent.
Qed.

(** ** The handlers keep [appOk] *)

Lemma fileToBase64_resolved (f : FileUtils.File)
  (read : FileUtils.ReadOutcome) (encoded : FileUtils.Encoded) :
  FileUtils.fileToBase64 f read = Resolved encoded ->
  FileUtils.base64 encoded <> "" /\ FileUtils.mimeType encoded <> "".
Proof.
  destruct read as [result|event]; [|discriminate].
  rewrite fileToBase64_unfold.
  destruct (truthy (headerOf result)); [|discriminate].
  destruct (truthy (payloadOf result)) eqn:Hpayload; [|discriminate].
  cbn [negb orb]. cbv zeta.
  set (tag := match matchColonSemicolon (headerOf result) with
              | Some group => group
              | None => FileUtils.type f
              end).
  destruct (truthy tag) eqn:Htag; [|discriminate].
  intros [= <-]. cbn. now rewrite <- !truthy_true_iff.
Qed.

Ltac app_ok :=
  unfold appOk, pngEdited, storedImagesOk, modeOk, imageOk in *; cbn in *;
  intuition (try discriminate; try congruence; eauto).

Lemma handleImageUpload_begin_ok file s :
  appOk s -> appOk (fst (App.handleImageUpload_begin file s)).
Proof.
  unfold App.handleImageUpload_begin. intros Hok.
  destruct file as [f|]; [|exact Hok].
  destruct (negb (startsWith "image/" (FileUtils.type f))); app_ok.
Qed.

Lemma handleImageUpload_resume_ok f read s :
  appOk s -> appOk (App.handleImageUpload_resume f read s).
Proof.
  unfold App.handleImageUpload_resume. intros Hok.
  destruct (FileUtils.fileToBase64 f read) as [encoded|reason] eqn:Hread;
    [|app_ok].
  destruct (fileToBase64_resolved f read encoded Hread) as [Hdata Htag].
  unfold appOk, pngEdited, storedImagesOk, modeOk, imageOk in *; cbn in *.
  destruct Hok as (Hpng & [Horiginal Hreference] & Hmode).
  split; [exact Hpng|]. split; [split; [|exact Hreference]|exact Hmode].
  intros i [= <-]. cbn. now split.
Qed.

Lemma handleReferenceImageUpload_begin_ok file s :
  appOk s -> appOk (fst (App.handleReferenceImageUpload_begin file s)).
Proof.
  unfold App.handleReferenceImageUpload_begin. intros Hok.
  destruct file as [f|]; [|exact Hok].
  destruct (negb (startsWith "image/" (FileUtils.type f))); app_ok.
Qed.

Lemma handleReferenceImageUpload_resume_ok f read s :
  appOk s -> appOk (App.handleReferenceImageUpload_resume f read s).
Proof.
  unfold App.handleReferenceImageUpload_resume. intros Hok.
  destruct (FileUtils.fileToBase64 f read) as [encoded|reason] eqn:Hread;
    [|app_ok].
  destruct (fileToBase64_resolved f read encoded Hread) as [Hdata Htag].
  unfold appOk, pngEdited, storedImagesOk, modeOk, imageOk in *; cbn in *.
  destruct Hok as (Hpng & [Horiginal Hreference] & Hmode).
  split; [exact Hpng|]. split; [split; [exact Horiginal|]|exact Hmode].
  intros i [= <-]. cbn. now split.
Qed.

Lemma clickGenerate_ok s :
  appOk s ->
  appOk (fst (Page.clickGenerate s))
  /\ forall c, snd (Page.clickGenerate s) = Some c -> promptCallOk c.
Proof.
  intros Hok. unfold Page.clickGenerate.
  destruct (App.editButtonEnabled s); [|split; [exact Hok|discriminate]].
  unfold App.handleEditRequest_begin.
  destruct (App.originalImage s) as [original|] eqn:Horiginal;
    [|split; [app_ok|discriminate]].
  destruct (truthy (trim (App.prompt s))) eqn:Hprompt; cbn [negb];
    [|split; [app_ok|discriminate]].
  split; [app_ok|].
  intros c [= <-]. unfold promptCallOk.
  cbn [App.pc_base64 App.pc_mimeType App.pc_prompt App.pc_reference].
  apply truthy_true_iff in Hprompt. rewrite trim_idempotent.
  destruct Hok as (_ & [Horig Href] & _).
  destruct (Horig original Horiginal) as [Hdata Htag].
  split; [exact Hdata|]. split; [exact Htag|]. split; [exact Hprompt|].
  intros r.
  destruct (App.referenceImage s) as [reference|]; [|discriminate].
  intros [= <-]. cbn. now apply Href.
Qed.

Lemma clickInpaint_ok s :
  appOk s ->
  appOk (fst (Page.clickInpaint s))
  /\ forall c, snd (Page.clickInpaint s) = Some c -> selectionCallOk c.
Proof.
  intros Hok.
  destruct (Page.clickInpaint s) as [s1 [c|]] eqn:Hclick; cbn [fst snd].
  - destruct (clickInpaint_region s s1 c Hclick) as [_ Hpositive].
    unfold Page.clickInpaint in Hclick.
    destruct (ImageCard.inpaintButtonEnabled _); [|discriminate].
    destruct (handleInpaintRequest_begin_started s s1 c Hclick)
      as (-> & Hsent & Hprompt & Hdata & edited & Hedited & Htag).
    split; [app_ok|]. intros c' [= <-].
    unfold selectionCallOk. rewrite Hsent.
    repeat split; try assumption; try apply Hpositive.
    destruct Hok as ([Hnone|(data & Hpng)] & _); [congruence|].
    rewrite Hpng in Hedited. injection Hedited as <-.
    rewrite pngDataUrl_header in Htag.
    change (matchColonSemicolon "data:image/png;base64")
      with (Some "image/png") in Htag.
    congruence.
  - split; [|discriminate].
    unfold Page.clickInpaint in Hclick.
    destruct (ImageCard.inpaintButtonEnabled _);
      [|injection Hclick as <-; exact Hok].
    unfold App.handleInpaintRequest_begin in Hclick.
    destruct (App.editedImage s) as [edited|] eqn:Hedited;
      [|injection Hclick as <-; app_ok].
    destruct (App.selection s) as [region|];
      [|injection Hclick as <-; app_ok].
    destruct (negb (truthy edited)
              || negb (truthy (trim (App.inpaintPrompt s))));
      [injection Hclick as <-; app_ok|].
    destruct (nth_error (split "," edited) 1) as [payload|],
      (matchColonSemicolon (nth 0 (split "," edited) ""));
      try (injection Hclick as <-; app_ok).
    destruct (truthy payload); [discriminate|].
    injection Hclick as <-. app_ok.
Qed.

Lemma toggle_ok s :
  ImageCard.toggleButtonEnabled (App.editedCardProps s) = true ->
  appOk s -> appOk (App.handleSelectAreaToggle s).
Proof.
  unfold ImageCard.toggleButtonEnabled, ImageCard.showActions.
  cbn [App.editedCardProps ImageCard.imageUrl ImageCard.isLoading
         ImageCard.onSelectAreaToggle].
  intros Hshown Hok. unfold App.handleSelectAreaToggle.
  destruct (App.editedImage s) as [edited|] eqn:Hedited;
    [|discriminate].
  destruct (App.isSelecting s); app_ok.
Qed.

Lemma handleEditRequest_resume_ok result s :
  appOk s -> appOk (App.handleEditRequest_resume result s).
Proof.
  unfold App.handleEditRequest_resume. intros Hok.
  destruct result as [data|reason]; app_ok.
Qed.

Lemma handleInpaintRequest_resume_ok result s :
  appOk s -> appOk (App.handleInpaintRequest_resume result s).
Proof.
  unfold App.handleInpaintRequest_resume. intros Hok.
  destruct result as [data|reason]; app_ok.
Qed.

Lemma deliver_ok emitted s : appOk s -> appOk (Page.deliver emitted s).
Proof. destruct emitted; intros Hok; app_ok. Qed.

(** ** The requests *)

Lemma runPromptCall_requests (ai : GeminiService.Service)
  (c : App.PromptCall) :
  promptCallOk c ->
  Forall requestOk (GeminiService.calls (App.runPromptCall ai c)).
Proof.
  intros (Hdata & Htag & Hprompt & Href).
  unfold App.runPromptCall. rewrite editImageWithPrompt_runs.
  unfold GeminiService.calls. cbn [fst]. constructor; [|constructor].
  unfold requestOk, promptRequest. cbn. repeat split.
  unfold GeminiService.promptContentParts.
  destruct (App.pc_reference c) as [r|] eqn:Hr.
  - exists (App.pc_base64 c), (App.pc_mimeType c),
      [GeminiService.InlineData (GeminiService.ref_base64 r)
         (GeminiService.ref_mimeType r)], (App.pc_prompt c).
    repeat split; try assumption; cbn; [lia|].
    constructor; [eauto|constructor].
  - exists (App.pc_base64 c), (App.pc_mimeType c), [], (App.pc_prompt c).
    repeat split; try assumption; cbn; [lia|constructor].
Qed.

Lemma runSelectionCall_requests (browser : GeminiService.Browser)
  (ai : GeminiService.Service) (c : App.SelectionCall) :
  selectionCallOk c ->
  Forall requestOk
    (GeminiService.calls (App.runSelectionCall browser ai c)).
Proof.
  intros (Hdata & Htag & Hprompt & _).
  unfold App.runSelectionCall. rewrite editImageWithSelection_runs.
  destruct (GeminiService.decodeImage browser _) as [size|];
    [destruct (GeminiService.getContext2d browser)|];
    unfold GeminiService.calls; cbn [fst]; try constructor;
    [|constructor].
  unfold requestOk, selectionRequest. cbn. repeat split.
  exists (App.sc_base64 c), (App.sc_mimeType c),
    [GeminiService.InlineData
       (maskFor browser size (App.sc_selection c)) "image/png"],
    (App.sc_prompt c).
  repeat split; try assumption; cbn; [rewrite Htag; discriminate|lia|].
  constructor; [eauto|constructor].
Qed.

(** ** One event, then any number *)

Lemma waitingOk_queue {A} (wrap : A -> Page.Pending) (started : option A)
  (waiting : list Page.Pending) :
  Forall waitingOk waiting ->
  (forall a, started = Some a -> waitingOk (wrap a)) ->
  Forall waitingOk (waiting ++ Page.queue wrap started).
Proof.
  intros Hwaiting Hstarted. apply Forall_app. split; [assumption|].
  destruct started as [a|]; cbn; [|constructor].
  constructor; [now apply Hstarted | constructor].
Qed.

Lemma step_pageOk (p : Page.t) (ev : Page.Event) :
  pageOk p ->
  pageOk (fst (Page.step p ev)) /\ Forall requestOk (snd (Page.step p ev)).
Proof.
  intros [Happ Hwaiting].
  destruct ev as [file|file|text|text| | | |container e|container e|
                  |i w]; cbn [Page.step].
  - destruct (App.inputsEnabled (Page.app p));
      [|split; [now split|constructor]].
    pose proof (handleImageUpload_begin_ok file _ Happ) as Hs.
    destruct (App.handleImageUpload_begin file (Page.app p)) as [s started].
    split; [|constructor]. split; [exact Hs|].
    now apply waitingOk_queue.
  - destruct (App.inputsEnabled (Page.app p));
      [|split; [now split|constructor]].
    pose proof (handleReferenceImageUpload_begin_ok file _ Happ) as Hs.
    destruct (App.handleReferenceImageUpload_begin file (Page.app p))
      as [s started].
    split; [|constructor]. split; [exact Hs|].
    now apply waitingOk_queue.
  - destruct (App.inputsEnabled (Page.app p));
      (split; [split; [|exact Hwaiting]|constructor]); [|exact Happ].
    cbn. revert Happ. clear. intros Hok. app_ok.
  - destruct (ImageCard.inpaintPromptEnabled _);
      (split; [split; [|exact Hwaiting]|constructor]); [|exact Happ].
    cbn. revert Happ. clear. intros Hok. app_ok.
  - destruct (clickGenerate_ok _ Happ) as [Hs Hcall].
    destruct (Page.clickGenerate (Page.app p)) as [s started].
    split; [|constructor]. split; [exact Hs|].
    apply waitingOk_queue; [assumption|]. intros c ->. now apply Hcall.
  - destruct (clickInpaint_ok _ Happ) as [Hs Hcall].
    destruct (Page.clickInpaint (Page.app p)) as [s started].
    split; [|constructor]. split; [exact Hs|].
    apply waitingOk_queue; [assumption|]. intros c ->. now apply Hcall.
  - destruct (ImageCard.toggleButtonEnabled _) eqn:Henabled;
      (split; [split; [|exact Hwaiting]|constructor]); [|exact Happ].
    now apply toggle_ok.
  - destruct (ImageCard.handleMouseDown _ _ container e) as [st emitted].
    split; [|constructor]. split; [|exact Hwaiting].
    now apply deliver_ok.
  - destruct (ImageCard.handleMouseMove _ _ container e) as [st emitted].
    split; [|constructor]. split; [|exact Hwaiting].
    now apply deliver_ok.
  - split; [now split|constructor].
  - destruct (nth_error (Page.pending p) i) as [waiting|] eqn:Hnth;
      [|split; [now split|constructor]].
    pose proof (Forall_removeNth waitingOk i _ Hwaiting) as Hrest.
    assert (waitingOk waiting) as Hthis.
    { rewrite Forall_forall in Hwaiting. apply Hwaiting.
      now apply nth_error_In in Hnth. }
    destruct waiting as [f|f|c|c]; cbn [fst snd].
    + split; [|constructor]. split; [|exact Hrest].
      now apply handleImageUpload_resume_ok.
    + split; [|constructor]. split; [|exact Hrest].
      now apply handleReferenceImageUpload_resume_ok.
    + split; [|now apply runPromptCall_requests].
      split; [|exact Hrest]. now apply handleEditRequest_resume_ok.
    + split; [|now apply runSelectionCall_requests].
      split; [|exact Hrest]. now apply handleInpaintRequest_resume_ok.
Qed.

Lemma run_pageOk (evs : list Page.Event) (p : Page.t) :
  pageOk p ->
  pageOk (fst (Page.run p evs)) /\ Forall requestOk (snd (Page.run p evs)).
Proof.
  revert p. induction evs as [|ev evs IH]; intros p Hok.
  - split; [assumption|constructor].
  - cbn [Page.run].
    destruct (step_pageOk p ev Hok) as [Hstep Hout].
    destruct (Page.step p ev) as [p1 out1].
    destruct (IH p1 Hstep) as [Hrun Hlater].
    destruct (Page.run p1 evs) as [p2 out2].
    split; [exact Hrun|]. apply Forall_app. now split.
Qed.

Lemma initial_pageOk : pageOk Page.initial.
Proof.
  split; [|constructor].
  unfold appOk, pngEdited, storedImagesOk, modeOk. cbn.
  repeat split; try discriminate. now left.
Qed.

Lemma reached_pageOk (evs : list Page.Event) : pageOk (Page.reached evs).
Proof. apply run_pageOk, initial_pageOk. Qed.

(** X21. On every page that the user can reach, the edited image is none
    or a data URL labelled [image/png]. A download takes place exactly
    when there is an edited image; its link is that data URL and its file
    name is [edited-image-], the time in decimal, [.png]. Where the
    download button is shown and enabled, the download takes place. *)
Theorem download_is_the_png_data_url (evs : list Page.Event) (now : N) :
  let s := Page.app (Page.reached evs) in
  pngEdited s
  /\ (handleDownload now s = None <-> App.editedImage s = None)
  /\ (forall link,
         handleDownload now s = Some link ->
         App.editedImage s = Some (href link)
         /\ (exists data, href link = App.pngDataUrl data)
         /\ download link
            = String.append "edited-image-"
                (String.append
                   (DecimalString.NilZero.string_of_uint (N.to_uint now))
                   ".png"))
  /\ (downloadButtonEnabled s = true -> handleDownload now s <> None).
Proof.
  cbv zeta. destruct (reached_pageOk evs) as [(Hpng & _) _].
  split; [exact Hpng|].
  unfold handleDownload, downloadButtonEnabled, ImageCard.showActions.
  cbn [App.editedCardProps ImageCard.imageUrl].
  destruct Hpng as [->|(data & ->)].
  - split; [tauto|]. split; [discriminate|]. cbn. discriminate.
  - cbn [App.pngDataUrl String.append truthy negb truthy_opt].
    split; [split; discriminate|]. split; [|discriminate].
    intros link [= <-]. cbn [href download].
    split; [reflexivity|]. split; [now exists data|reflexivity].
Qed.

(** X22. On every page that the user can reach, selection mode is on
    only while an edited image is shown: an upload and a whole-image edit
    leave the mode as they clear the image. *)
Theorem selection_mode_needs_edited_image (evs : list Page.Event) :
  App.isSelecting (Page.app (Page.reached evs)) = true ->
  exists data,
    App.editedImage (Page.app (Page.reached evs))
    = Some (App.pngDataUrl data).
Proof.
  intros Hmode.
  destruct (reached_pageOk evs) as [(Hpng & _ & Hedited) _].
  destruct Hpng as [Hnone|Hpng]; [|exact Hpng].
  now apply Hedited in Hmode.
Qed.

Lemma selection_mode_needs_edited_image_witness :
  exists data,
    App.editedImage (Page.app (Page.reached Examples.dragUpLeft))
    = Some (App.pngDataUrl data).
Proof.
  apply (selection_mode_needs_edited_image Examples.dragUpLeft).
  vm_compute. reflexivity.
Defined.


(** X24. On every page that the user can reach, the original image and
    the reference image, when stored, have a payload and a format that
    are not empty, and every edit that is awaited was started with such
    an image, an instruction that is not blank and, for a region edit, the
    format [image/png] and a region of positive width and height. *)
Theorem stored_images_and_awaited_edits (evs : list Page.Event) :
  storedImagesOk (Page.app (Page.reached evs))
  /\ Forall waitingOk (Page.pending (Page.reached evs)).
Proof.
  destruct (reached_pageOk evs) as [(_ & Himages & _) Hwaiting].
  now split.
Qed.

End PageInvariants.
